(** * Free_Finance: the menu engine and the budget object

    A shallow embedding of

      - [src/interface/menu_handler.py]: [menu_header], [menu_choices],
        [menu_maker], [main_menu], [get_user_choice], [menu_holder];
      - [src/mods/budget/budget_handler.py]: [Budget.__init__],
        [Budget.add_remove_debt], [Budget.debt_to_income],
        [Budget.debt_to_asset];

    together with the part of the Python runtime these functions lean on:
    [str] as a sequence of Unicode code points, [str.isdigit], [int(str)],
    [str(int)], [callable], [==] on plain values, [in] and [list.remove].

    Conventions.  A Python [str] is a list of code points.  Effects are
    threaded through a small trace-and-state monad [prog]: a computation
    takes a state, emits the events the engine itself performs (prompting,
    printing, invoking an action) and ends by returning, by raising, or by
    never coming back.  The collaborators behind the menu actions are
    opaque: their behaviour is a parameter ([behave]) over an abstract
    world.  Integers are unbounded, as in the language.  CPython converts
    between [int] and [str] only up to a number of digits (4300 unless
    the limit is changed or lifted) and raises [ValueError] beyond it;
    [PyStr.int] and [PyStr.str] read and write digits without that
    limit, and every statement that would meet it is stated within it
    ([max_str_digits], [within_str_digits]). *)

From Stdlib Require Import List ZArith NArith Bool Lia String Ascii FinFun.
From Stdlib Require Import Decimal DecimalFacts DecimalPos DecimalN.
Import ListNotations.

Set Implicit Arguments.
Set Warnings "-register-all".

(* ================================================================== *)
(** * Unicode character classes used by [str.isdigit] and [int] *)
(* ================================================================== *)

Module Unicode.

#[local] Open Scope N_scope.

Definition codepoint := N.

(** The zero of every run of ten consecutive decimal digits
    (general category Nd, Unicode 14.0): ASCII, Arabic-Indic, Devanagari,
    ..., the five mathematical alphabets, ..., segmented digits. *)
Definition decimal_zeros : list codepoint :=
  [ 0x30; 0x660; 0x6f0; 0x7c0; 0x966; 0x9e6; 0xa66; 0xae6; 0xb66; 0xbe6;
    0xc66; 0xce6; 0xd66; 0xde6; 0xe50; 0xed0; 0xf20; 0x1040; 0x1090;
    0x17e0; 0x1810; 0x1946; 0x19d0; 0x1a80; 0x1a90; 0x1b50; 0x1bb0;
    0x1c40; 0x1c50; 0xa620; 0xa8d0; 0xa900; 0xa9d0; 0xa9f0; 0xaa50;
    0xabf0; 0xff10; 0x104a0; 0x10d30; 0x11066; 0x110f0; 0x11136; 0x111d0;
    0x112f0; 0x11450; 0x114d0; 0x11650; 0x116c0; 0x11730; 0x118e0;
    0x11950; 0x11c50; 0x11d50; 0x11da0; 0x16a60; 0x16ac0; 0x16b50;
    0x1d7ce; 0x1d7d8; 0x1d7e2; 0x1d7ec; 0x1d7f6; 0x1e140; 0x1e2f0;
    0x1e950; 0x1fbf0 ].

(** Characters that have a digit value but no decimal value
    (Numeric_Type=Digit): superscripts and subscripts, circled,
    parenthesized and full-stop digits, dingbats, Ethiopic, New Tai Lue
    tham one, Kharoshthi, Rumi, Brahmi, digits with comma. *)
Definition digit_only_ranges : list (codepoint * codepoint) :=
  [ (0xb2, 0xb3); (0xb9, 0xb9); (0x1369, 0x1371); (0x19da, 0x19da);
    (0x2070, 0x2070); (0x2074, 0x2079); (0x2080, 0x2089); (0x2460, 0x2468);
    (0x2474, 0x247c); (0x2488, 0x2490); (0x24ea, 0x24ea); (0x24f5, 0x24fd);
    (0x24ff, 0x24ff); (0x2776, 0x277e); (0x2780, 0x2788); (0x278a, 0x2792);
    (0x10a40, 0x10a43); (0x10e60, 0x10e68); (0x11052, 0x1105a);
    (0x1f100, 0x1f10a) ].

(** White space beyond ASCII (bidirectional class WS, B or S, or
    category Zs). *)
Definition wide_space_ranges : list (codepoint * codepoint) :=
  [ (0x85, 0x85); (0xa0, 0xa0); (0x1680, 0x1680); (0x2000, 0x200a);
    (0x2028, 0x2029); (0x202f, 0x202f); (0x205f, 0x205f); (0x3000, 0x3000) ].

Definition in_range (c : codepoint) (r : codepoint * codepoint) : bool :=
  (fst r <=? c) && (c <=? snd r).

Definition in_ranges (rs : list (codepoint * codepoint)) (c : codepoint) : bool :=
  existsb (in_range c) rs.

(** [Py_UNICODE_TODECIMAL]: the decimal value of a character, if any. *)
Definition decimal_value (c : codepoint) : option N :=
  match find (fun z => in_range c (z, z + 9)) decimal_zeros with
  | Some z => Some (c - z)
  | None => None
  end.

Definition isdecimal (c : codepoint) : bool :=
  match decimal_value c with Some _ => true | None => false end.

(** [Py_UNICODE_ISDIGIT]: every decimal character is a digit; so are
    the digit-only characters. *)
Definition isdigit (c : codepoint) : bool :=
  isdecimal c || in_ranges digit_only_ranges c.

(** [Py_UNICODE_ISSPACE]. *)
Definition isspace (c : codepoint) : bool :=
  in_ranges [(0x9, 0xd); (0x1c, 0x20)] c || in_ranges wide_space_ranges c.

(** [Py_ISSPACE], the C-locale class the integer parser skips. *)
Definition c_isspace (c : codepoint) : bool :=
  in_ranges [(0x9, 0xd); (0x20, 0x20)] c.

Definition is_ascii_digit (c : codepoint) : bool := in_range c (0x30, 0x39).

End Unicode.

(* ================================================================== *)
(** * Python strings *)
(* ================================================================== *)

Module PyStr.

Import Unicode.

Definition pystr := list codepoint.

(** A string literal of the source (ASCII text). *)
Definition lit (s : string) : pystr :=
  List.map N_of_ascii (list_ascii_of_string s).

Definition eqb (s t : pystr) : bool :=
  if list_eq_dec N.eq_dec s t then true else false.

(** [s.isdigit()]: at least one character, and all of them digits. *)
Definition isdigit (s : pystr) : bool :=
  match s with
  | [] => false
  | _ => forallb Unicode.isdigit s
  end.

(** ** [int(s)], base ten

    The interpreter first rewrites the text to ASCII: characters below
    127 stay, wide white space becomes a blank, decimal digits of any
    script become ASCII digits, anything else spoils the text.  The
    ASCII text is then read as: blanks, an optional sign, digits with
    single underscores between digits, blanks. *)

Definition to_ascii (c : codepoint) : option codepoint :=
  if (c <? 127)%N then Some c
  else if Unicode.isspace c then Some 0x20%N
  else match decimal_value c with
       | Some d => Some (0x30 + d)%N
       | None => None
       end.

Fixpoint transform_decimal_and_space (s : pystr) : option pystr :=
  match s with
  | [] => Some []
  | c :: r =>
      match to_ascii c, transform_decimal_and_space r with
      | Some a, Some r' => Some (a :: r')
      | _, _ => None
      end
  end.

Fixpoint skip_space (s : pystr) : pystr :=
  match s with
  | c :: r => if c_isspace c then skip_space r else s
  | [] => []
  end.

(** Scans the digits.  [after_underscore] tells whether the previous
    character was an underscore; the result is the value read so far and
    the text left over. *)
Fixpoint scan_digits (after_underscore : bool) (acc : Z) (s : pystr)
  : option (Z * pystr) :=
  match s with
  | c :: r =>
      if is_ascii_digit c
      then scan_digits false (10 * acc + Z.of_N (c - 0x30)) r
      else if (c =? 0x5f)%N
      then if after_underscore then None else scan_digits true acc r
      else if after_underscore then None else Some (acc, s)
  | [] => if after_underscore then None else Some (acc, [])
  end.

(** The digits and what may follow them: at least one digit first,
    only blanks after the last. *)
Definition read_digits (s : pystr) : option Z :=
  match s with
  | c :: _ =>
      if is_ascii_digit c
      then match scan_digits false 0 s with
           | Some (v, rest) =>
               match skip_space rest with
               | [] => Some v
               | _ => None
               end
           | None => None
           end
      else None
  | [] => None
  end.

Definition long_from_string (s : pystr) : option Z :=
  match skip_space s with
  | c :: r =>
      if (c =? 0x2b)%N then read_digits r
      else if (c =? 0x2d)%N then option_map Z.opp (read_digits r)
      else read_digits (c :: r)
  | [] => None
  end.

(** [int(s)]; [None] is [ValueError].  The digits are read without
    the interpreter's limit on their number: on a text of more than
    [max_str_digits] digits CPython raises [ValueError] where this
    reading still gives the value. *)
Definition int (s : pystr) : option Z :=
  match transform_decimal_and_space s with
  | Some a => long_from_string a
  | None => None
  end.

(** ** [str(i)] for an integer

    The decimal digits of [i], after a minus sign when [i] is negative,
    written without the interpreter's limit on their number: for an
    integer of more than [max_str_digits] digits CPython raises
    [ValueError] where [str] below still writes the digits. *)

Fixpoint digits (d : uint) : pystr :=
  match d with
  | Nil => []
  | D0 r => 0x30%N :: digits r
  | D1 r => 0x31%N :: digits r
  | D2 r => 0x32%N :: digits r
  | D3 r => 0x33%N :: digits r
  | D4 r => 0x34%N :: digits r
  | D5 r => 0x35%N :: digits r
  | D6 r => 0x36%N :: digits r
  | D7 r => 0x37%N :: digits r
  | D8 r => 0x38%N :: digits r
  | D9 r => 0x39%N :: digits r
  end.

Definition str (i : Z) : pystr :=
  match Z.to_int i with
  | Pos d => digits d
  | Neg d => 0x2d%N :: digits d
  end.

End PyStr.

(* ================================================================== *)
(** * Values, exceptions and the trace-and-state monad *)
(* ================================================================== *)

Module Py.

Import PyStr.

(** Plain values: what [==] compares by content, plus objects that only
    have an identity (an account, a user record). *)
Inductive pyvalue : Type :=
| PyNone
| PyInt (z : Z)
| PyStr (s : pystr)
| PyDict (items : list (pystr * pyvalue))
| PyObject (id : N).

(** What can sit in the third slot of a menu tuple: a named function
    (or builtin), a [lambda] whose body calls [callee] on [args], or a
    plain value. *)
Inductive pyobject : Type :=
| Function (name : pystr)
| Lambda (callee : pystr) (args : list pyvalue)
| Value (v : pyvalue).

Inductive exn : Type :=
| TypeError
| ValueError
| IndexError
| EOFError
| ZeroDivisionError
| OverflowError
| SystemExit
| OtherError (tag : N).

(** What the engine itself does, in order. *)
Inductive event : Type :=
| Prompt (text : pystr)      (* [input(text)] shows its prompt *)
| Print (text : pystr)       (* [print(text)] *)
| Invoke (f : pyobject).     (* [f()] *)

(** How a call ends. *)
Inductive outcome (A : Type) : Type :=
| Returns (a : A)
| Raises (e : exn)
| Diverges.

Arguments Returns {A} a.
Arguments Raises {A} e.
Arguments Diverges {A}.

Section Prog.

Variable S : Type.

Definition prog (A : Type) : Type := S -> list event * outcome A * S.

Definition ret {A} (a : A) : prog A := fun s => ([], Returns a, s).

Definition bind {A B} (m : prog A) (k : A -> prog B) : prog B :=
  fun s =>
    match m s with
    | (t1, Returns a, s1) =>
        match k a s1 with
        | (t2, o, s2) => (t1 ++ t2, o, s2)
        end
    | (t1, Raises e, s1) => (t1, Raises e, s1)
    | (t1, Diverges, s1) => (t1, Diverges, s1)
    end.

Definition emit (e : event) : prog unit := fun s => ([e], Returns tt, s).

Definition raise {A} (e : exn) : prog A := fun s => ([], Raises e, s).

Definition print (text : pystr) : prog unit := emit (Print text).

Definition get : prog S := fun s => ([], Returns s, s).

Definition put (s' : S) : prog unit := fun _ => ([], Returns tt, s').

End Prog.

Arguments ret {S A} a.
Arguments bind {S A B} m k.
Arguments emit {S} e.
Arguments raise {S A} e.
Arguments print {S} text.
Arguments get {S}.
Arguments put {S} s'.

Declare Scope prog_scope.
Delimit Scope prog_scope with prog.
Notation "x <- m ;; k" := (bind m (fun x => k))
  (at level 61, m at next level, right associativity) : prog_scope.
Notation "m ;; k" := (bind m (fun _ => k))
  (at level 61, right associativity) : prog_scope.

(** [callable(x)]. *)
Definition callable (x : pyobject) : bool :=
  match x with
  | Function _ | Lambda _ _ => true
  | Value _ => false
  end.

(** [len(l)]. *)
Definition len {A} (l : list A) : Z := Z.of_nat (List.length l).

(** [l[i]]: a negative index counts from the end. *)
Definition getitem {S A} (l : list A) (i : Z) : prog S A :=
  let j := (if i <? 0 then i + len l else i)%Z in
  if (j <? 0)%Z then raise IndexError
  else match nth_error l (Z.to_nat j) with
       | Some x => ret x
       | None => raise IndexError
       end.

Fixpoint lookup {A} (k : pystr) (d : list (pystr * A)) : option A :=
  match d with
  | [] => None
  | (k', v) :: r => if PyStr.eqb k k' then Some v else lookup k r
  end.

(** [a == b] on plain values.  Dictionaries are equal when they have
    the same keys with equal values, in any order. *)
Fixpoint py_eq (a b : pyvalue) : bool :=
  match a, b with
  | PyNone, PyNone => true
  | PyInt x, PyInt y => (x =? y)%Z
  | PyStr s, PyStr t => PyStr.eqb s t
  | PyObject i, PyObject j => (i =? j)%N
  | PyDict xs, PyDict ys =>
      (List.length xs =? List.length ys)%nat &&
      forallb (fun kv : pystr * pyvalue =>
                 let (k, v) := kv in
                 match lookup k ys with
                 | Some v' => py_eq v v'
                 | None => false
                 end) xs
  | _, _ => false
  end.

(** [x in l]. *)
Definition contains (x : pyvalue) (l : list pyvalue) : bool :=
  existsb (fun y => py_eq y x) l.

(** [l.remove(x)]: drops the first item equal to [x]; [None] when there
    is none ([ValueError]). *)
Fixpoint remove_first (x : pyvalue) (l : list pyvalue) : option (list pyvalue) :=
  match l with
  | [] => None
  | y :: r =>
      if py_eq y x then Some r
      else match remove_first x r with
           | Some r' => Some (y :: r')
           | None => None
           end
  end.

End Py.

(* ================================================================== *)
(** * interface/menu_handler.py *)
(* ================================================================== *)

Module MenuHandler.

Import PyStr Py.
#[local] Open Scope prog_scope.
#[local] Open Scope Z_scope.

(** One tuple [(number, description, action)] of a menu. *)
Record menu_option : Type := MenuOption {
  number : Z;
  description : pystr;
  action : pyobject
}.

Definition nl : pystr := [10%N].

(** [menu_header(header_title)] *)
Definition menu_header {S} (header_title : pystr) : prog S unit :=
  print (nl ++ lit "       #####Finance Manager#####" ++
         nl ++ lit "    ******************************" ++
         nl ++ lit "             " ++ header_title ++
         nl ++ lit "    ******************************").

(** [menu_choices(choices_and_functions)] *)
Fixpoint menu_choices_loop {S} (choices_and_functions : list menu_option)
  : prog S unit :=
  match choices_and_functions with
  | [] => ret tt
  | o :: r =>
      print (lit "(" ++ str (number o) ++ lit ") " ++ description o) ;;
      menu_choices_loop r
  end.

Definition menu_choices {S} (choices_and_functions : list menu_option)
  : prog S unit :=
  menu_choices_loop choices_and_functions ;;
  print (lit "    ******************************").

(** [menu_holder(active_user=None)]: the registry, in the order of the
    dictionary display. *)
Definition menu_holder (active_user : pyvalue)
  : list (pystr * list menu_option) :=
  let main_menu := Function (lit "main_menu") in
  [ (lit "Main Menu",
     [ MenuOption 1 (lit "Choose Account") (Function (lit "display_account_list"));
       MenuOption 2 (lit "Create Account") (Function (lit "create_new_account_interface"));
       MenuOption 3 (lit "Exit") (Function (lit "exit")) ]);
    (lit "Create Account",
     [ MenuOption 1 (lit "Run Create Account Program")
         (Function (lit "create_new_account_interface"));
       MenuOption 2 (lit "Return to Main Menu") main_menu ]);
    (lit "User Account Menu",
     [ MenuOption 1 (lit "View Balances")
         (Lambda (lit "transaction_view_balance") [active_user]);
       MenuOption 2 (lit "Deposit")
         (Lambda (lit "transaction_interaction") [PyStr (lit "deposit"); active_user]);
       MenuOption 3 (lit "Withdrawal")
         (Lambda (lit "transaction_interaction") [PyStr (lit "withdrawal"); active_user]);
       MenuOption 4 (lit "View Bill Tracker")
         (Lambda (lit "menu_maker") [PyStr (lit "Bill Tracker"); active_user]);
       MenuOption 5 (lit "View Budget")
         (Lambda (lit "menu_maker") [PyStr (lit "Budgeted"); active_user]);
       MenuOption 6 (lit "Personal Market Watch")
         (Lambda (lit "menu_maker") [PyStr (lit "Personal Market Watch"); active_user]);
       MenuOption 7 (lit "Return to Main Menu") main_menu ]);
    (lit "Bill Tracker",
     [ MenuOption 1 (lit "Add Bill") (Lambda (lit "user_add_bill") [active_user]);
       MenuOption 2 (lit "Remove Bill") (Lambda (lit "user_remove_bill") [active_user]);
       MenuOption 3 (lit "View Current List of All Bills")
         (Lambda (lit "user_get_bill_reminders") [active_user]);
       MenuOption 4 (lit "Return to Main Menu") main_menu ]);
    (lit "Budgeted",
     [ MenuOption 1 (lit "Current Budget") (Value (PyStr (lit "test")));
       MenuOption 2 (lit "New Budget") (Value (PyStr (lit "test")));
       MenuOption 3 (lit "Remove Budget") (Value (PyStr (lit "test")));
       MenuOption 4 (lit "Update Budget") (Value (PyStr (lit "test")));
       MenuOption 5 (lit "Return to Main Menu") main_menu ]);
    (lit "Personal Market Watch",
     [ MenuOption 1 (lit "Indexes - Global") (Function (lit "user_view_global_indexes"));
       MenuOption 2 (lit "Indexes - By Region")
         (Function (lit "user_view_indexes_by_region"));
       MenuOption 3 (lit "Set Favorite Index's") (Function (lit "user_set_favorite_index"));
       MenuOption 4 (lit "Indexes - Favorites") (Lambda (lit "user_view_favorite_index") []);
       MenuOption 5 (lit "Stocks - Watch List") (Lambda (lit "user_view_stock_watchlist") []);
       MenuOption 6 (lit "Stocks - Add to Watchlist")
         (Lambda (lit "user_add_to_stock_watchlist") []);
       MenuOption 7 (lit "Search Stock data") (Lambda (lit "user_search_stock_data") []);
       MenuOption 8 (lit "Return to Main Menu") main_menu ]) ].

Section Engine.

(** The world the collaborators act on, and what calling a callable
    object with no argument does to it. *)
Variable W : Type.
Variable behave : pyobject -> W -> outcome unit * W.

(** One invocation of a callable object: the engine records it and
    the collaborator does its work.  The value a call returns is
    dropped by the engine. *)
Definition invoke (f : pyobject) : prog W unit :=
  fun w => let (o, w') := behave f w in ([Invoke f], o, w').

(** [f()] *)
Definition call (f : pyobject) : prog W unit :=
  if callable f then invoke f else raise TypeError.

(** [choices_and_funcs()], the list itself applied to no argument: a
    list is not callable. *)
Definition call_list (choices_and_funcs : list menu_option) : prog W unit :=
  raise TypeError.

(** [int(string_choice)] as a statement that may raise. *)
Definition int_of (s : pystr) : prog W Z :=
  match PyStr.int s with
  | Some i => ret i
  | None => raise ValueError
  end.

(** One turn of the [while True] loop of [get_user_choice], after
    [input] has delivered [string_choice]. *)
Definition get_user_choice_body (choices_and_funcs : list menu_option)
           (string_choice : pystr) : prog W unit :=
  if PyStr.isdigit string_choice then
    int_choice <- int_of string_choice ;;
    (if len choices_and_funcs =? 1
     then call_list choices_and_funcs
     else ret tt) ;;
    if (1 <=? int_choice) && (int_choice <=? len choices_and_funcs) then
      o <- getitem choices_and_funcs (int_choice - 1) ;;
      if callable (action o)
      then call (action o)
      else print (lit "'" ++ description o ++ lit "' is not a valid option.")
    else print (lit "Invalid choice. Please select a valid number.")
  else print (lit "Invalid input. Please enter a number.").

(** [get_user_choice(choices_and_funcs)].  [inputs] are the lines
    typed at this loop's own prompt, in order; when they run out,
    [input] meets the end of the stream and raises [EOFError]. *)
Fixpoint get_user_choice (choices_and_funcs : list menu_option)
         (inputs : list pystr) : prog W unit :=
  match inputs with
  | [] => emit (Prompt (lit "Choice: ")) ;; raise EOFError
  | string_choice :: rest =>
      emit (Prompt (lit "Choice: ")) ;;
      get_user_choice_body choices_and_funcs string_choice ;;
      get_user_choice choices_and_funcs rest
  end.

(** [menu_maker(menu_key, active_user)] *)
Definition menu_maker (menu_key : pystr) (active_user : pyvalue)
           (inputs : list pystr) : prog W unit :=
  let menu_list := menu_holder active_user in
  match lookup menu_key menu_list with
  | Some choices_and_funcs =>
      menu_header menu_key ;;
      menu_choices choices_and_funcs ;;
      get_user_choice choices_and_funcs inputs
  | None => print (lit "Menu '" ++ menu_key ++ lit "' not found.")
  end.

(** [main_menu()] *)
Definition main_menu (inputs : list pystr) : prog W unit :=
  let menu_list := menu_holder PyNone in
  match lookup (lit "Main Menu") menu_list with
  | Some choices_and_funcs =>
      menu_header (lit "Main Menu") ;;
      menu_choices choices_and_funcs ;;
      get_user_choice choices_and_funcs inputs
  | None => ret tt
  end.

End Engine.

End MenuHandler.

(* ================================================================== *)
(** * mods/budget/budget_handler.py *)
(* ================================================================== *)

Module BudgetHandler.

Import PyStr Py.
#[local] Open Scope prog_scope.
#[local] Open Scope Z_scope.

(** The names [budget_handler.py] takes from
    [data_handler.variables.constants], a module that is not among the
    sources: they are parameters of the model. *)
Record constants : Type := Constants {
  ADD : pyvalue;
  REMOVE : pyvalue;
  ESSENTIAL_EXPENSES : pyvalue;
  NON_ESSENTIAL_EXPENSES : pyvalue;
  SAVINGS_AND_INVESTMENTS : pyvalue;
  HOUSING : pyvalue;
  UTILITIES : pyvalue;
  GROCERIES : pyvalue;
  TRANSPORTATION : pyvalue;
  INSURANCE : pyvalue;
  HEALTHCARE : pyvalue;
  DEBT_PAYMENTS : pyvalue;
  DINING_OUT : pyvalue;
  ENTERTAINMENT : pyvalue;
  PERSONAL_CARE : pyvalue;
  CLOTHING : pyvalue;
  EDUCATION : pyvalue;
  HOBBIES_AND_LEISURE : pyvalue;
  TRAVEL_VACATIONS : pyvalue;
  GIFTS_DONATIONS : pyvalue;
  EMERGENCY_FUND : pyvalue;
  RETIREMENT_SAVINGS : pyvalue;
  INVESTMENTS : pyvalue;
  EDUCATION_SAVINGS : pyvalue;
  MAJOR_PURCHASES : pyvalue
}.

Section Budget.

Variable K : constants.

(** Binary floating point stays abstract: the type of floats, the
    test for a zero, and the rounded operations.  [float_of_int] and
    [int_truediv] give [None] when the result does not fit a float
    ([OverflowError]); [int_truediv] and [float_div] are only asked
    for a quotient by a divisor that is not zero. *)
Variable pyfloat : Type.
Variable float_is_zero : pyfloat -> bool.
Variable float_of_int : Z -> option pyfloat.
Variable int_truediv : Z -> Z -> option pyfloat.
Variable float_div : pyfloat -> pyfloat -> pyfloat.
Variable float_mul : pyfloat -> pyfloat -> pyfloat.

Inductive pynum : Type :=
| Int (z : Z)
| Float (f : pyfloat).

Definition to_float (x : pynum) : option pyfloat :=
  match x with
  | Int z => float_of_int z
  | Float f => Some f
  end.

(** [x / y] *)
Definition truediv {S} (x y : pynum) : prog S pynum :=
  match x, y with
  | Int a, Int b =>
      if b =? 0 then raise ZeroDivisionError
      else match int_truediv a b with
           | Some q => ret (Float q)
           | None => raise OverflowError
           end
  | _, _ =>
      match to_float x, to_float y with
      | Some a, Some b =>
          if float_is_zero b then raise ZeroDivisionError
          else ret (Float (float_div a b))
      | _, _ => raise OverflowError
      end
  end.

(** [x * y] *)
Definition mul {S} (x y : pynum) : prog S pynum :=
  match x, y with
  | Int a, Int b => ret (Int (a * b))
  | _, _ =>
      match to_float x, to_float y with
      | Some a, Some b => ret (Float (float_mul a b))
      | _, _ => raise OverflowError
      end
  end.

(** The attributes of a [Budget] object. *)
Record Budget : Type := MkBudget {
  monthly_income : pynum;
  expenses : list pyvalue;
  expense_budget_category : list (pyvalue * list pyvalue);
  budgets : list pyvalue;
  budget_alerts : list pyvalue;
  current_debt : list pyvalue;
  total_debt : pynum;
  assets : pynum;
  checking_balance : pynum;
  savings_balance : pynum;
  credit_card_balances : list pyvalue;
  credit_card_limits : list pyvalue;
  net_worth : pynum
}.

(** [Budget()], that is [Budget.__init__]. *)
Definition Budget_init : Budget :=
  {| monthly_income := Int 0;
     expenses := [];
     expense_budget_category :=
       [ (ESSENTIAL_EXPENSES K,
          [ HOUSING K; UTILITIES K; GROCERIES K; TRANSPORTATION K;
            INSURANCE K; HEALTHCARE K; DEBT_PAYMENTS K ]);
         (NON_ESSENTIAL_EXPENSES K,
          [ DINING_OUT K; ENTERTAINMENT K; PERSONAL_CARE K; CLOTHING K;
            EDUCATION K; HOBBIES_AND_LEISURE K; TRAVEL_VACATIONS K;
            GIFTS_DONATIONS K ]);
         (SAVINGS_AND_INVESTMENTS K,
          [ EMERGENCY_FUND K; RETIREMENT_SAVINGS K; INVESTMENTS K;
            EDUCATION_SAVINGS K; MAJOR_PURCHASES K ]) ];
     budgets := [];
     budget_alerts := [];
     current_debt := [];
     total_debt := Int 0;
     assets := Int 0;
     checking_balance := Int 0;
     savings_balance := Int 0;
     credit_card_balances := [];
     credit_card_limits := [];
     net_worth := Int 0 |}.

(** [self.current_debt = l], the other attributes untouched. *)
Definition set_current_debt (self : Budget) (l : list pyvalue) : Budget :=
  {| monthly_income := monthly_income self;
     expenses := expenses self;
     expense_budget_category := expense_budget_category self;
     budgets := budgets self;
     budget_alerts := budget_alerts self;
     current_debt := l;
     total_debt := total_debt self;
     assets := assets self;
     checking_balance := checking_balance self;
     savings_balance := savings_balance self;
     credit_card_balances := credit_card_balances self;
     credit_card_limits := credit_card_limits self;
     net_worth := net_worth self |}.

(** The dictionary the ADD branch stores. *)
Definition debt_entry (debt_name debt_total : pyvalue) : pyvalue :=
  PyDict [ (lit "debt_name", debt_name); (lit "debt_total", debt_total) ].

(** [Budget.add_remove_debt(self, debt_name, debt_total, add_or_remove)];
    the state of the computation is [self]. *)
Definition add_remove_debt (debt_name debt_total add_or_remove : pyvalue)
  : prog Budget unit :=
  self <- get ;;
  if py_eq add_or_remove (ADD K) then
    put (set_current_debt self
           (current_debt self ++ [debt_entry debt_name debt_total]))
  else if py_eq add_or_remove (REMOVE K) then
    if contains debt_name (current_debt self) then
      match remove_first debt_name (current_debt self) with
      | Some l => put (set_current_debt self l)
      | None => raise ValueError
      end
    else print (lit "Debt not found.")
  else print (lit "Please enter a valid choice.").

(** [Budget.debt_to_income(self, total_monthly_debt_payments,
    gross_monthly_income)] *)
Definition debt_to_income (total_monthly_debt_payments
                           gross_monthly_income : pynum)
  : prog Budget pynum :=
  q <- truediv total_monthly_debt_payments gross_monthly_income ;;
  mul q (Int 100).

(** [Budget.debt_to_asset(self, total_debt, total_assets)].  The two
    arguments may be any objects whatever; the body reads the
    attributes of [self]. *)
Definition debt_to_asset {A B : Type} (arg_total_debt : A)
           (arg_total_assets : B) : prog Budget pynum :=
  self <- get ;;
  q <- truediv (total_debt self) (assets self) ;;
  mul q (Int 100).

(** [self.budgets = l], the other attributes untouched. *)
Definition set_budgets (self : Budget) (l : list pyvalue) : Budget :=
  {| monthly_income := monthly_income self;
     expenses := expenses self;
     expense_budget_category := expense_budget_category self;
     budgets := l;
     budget_alerts := budget_alerts self;
     current_debt := current_debt self;
     total_debt := total_debt self;
     assets := assets self;
     checking_balance := checking_balance self;
     savings_balance := savings_balance self;
     credit_card_balances := credit_card_balances self;
     credit_card_limits := credit_card_limits self;
     net_worth := net_worth self |}.

(** [Budget.expense(self, expense_category, expense_type, expense_total)] *)
Definition expense (expense_category expense_type expense_total : pyvalue)
  : prog Budget unit :=
  if py_eq expense_category (ESSENTIAL_EXPENSES K) then ret tt
  else if py_eq expense_category (NON_ESSENTIAL_EXPENSES K) then ret tt
  else if py_eq expense_category (SAVINGS_AND_INVESTMENTS K) then ret tt
  else print (lit "Please select a valid expense category.").

(** [Budget.add_remove_credit_info(self)] *)
Definition add_remove_credit_info : prog Budget unit := ret tt.

(** The dictionary [add_remove_budget] stores. *)
Definition budget_entry (budget_name budget_total : pyvalue) : pyvalue :=
  PyDict [ (lit "budget_name", budget_name);
           (lit "budget_total", budget_total) ].

(** [Budget.add_remove_budget(self, budget_name, budget_total)] *)
Definition add_remove_budget (budget_name budget_total : pyvalue)
  : prog Budget unit :=
  self <- get ;;
  put (set_budgets self
         (budgets self ++ [budget_entry budget_name budget_total])).

(** [Budget.budget_alerter(self, budget_name)] *)
Definition budget_alerter (budget_name : pyvalue) : prog Budget unit := ret tt.

(** [Budget.debt_handler(self)] *)
Definition debt_handler : prog Budget unit := ret tt.

(** [Budget.net_savings(self)] *)
Definition net_savings : prog Budget unit := ret tt.

(** [Budget.savings_rate(self)] *)
Definition savings_rate : prog Budget unit := ret tt.

(** [Budget.debt_to_income_ratio(self)] *)
Definition debt_to_income_ratio : prog Budget unit := ret tt.

(** [Budget.fifty_thirty_twenty_rule(self)] *)
Definition fifty_thirty_twenty_rule : prog Budget unit := ret tt.

(** [Budget.emergency_fund_calculator(self)] *)
Definition emergency_fund_calculator : prog Budget unit := ret tt.

(** [Budget.sinking_fund_contribution(self)] *)
Definition sinking_fund_contribution : prog Budget unit := ret tt.

(** [Budget.compound_interest_calculator(self)] *)
Definition compound_interest_calculator : prog Budget unit := ret tt.

(** [Budget.cash_flow_forcasting(self)] *)
Definition cash_flow_forcasting : prog Budget unit := ret tt.

(** [Budget.consumer_debt_to_income(self, consumer_debt,
    gross_annual_income)] *)
Definition consumer_debt_to_income (consumer_debt gross_annual_income : pynum)
  : prog Budget pynum :=
  q <- truediv consumer_debt gross_annual_income ;;
  mul q (Int 100).

(** [Budget.loan_to_value(self, loan_amount, appraised_value_of_asset)] *)
Definition loan_to_value (loan_amount appraised_value_of_asset : pynum)
  : prog Budget pynum :=
  q <- truediv loan_amount appraised_value_of_asset ;;
  mul q (Int 100).

(** [Budget.credit_utilization(self, total_credit_card_balances,
    total_credit_limits)] *)
Definition credit_utilization (total_credit_card_balances
                               total_credit_limits : pynum)
  : prog Budget pynum :=
  q <- truediv total_credit_card_balances total_credit_limits ;;
  mul q (Int 100).

(** [Budget.savings_to_debt(self, total_savings, total_debt)] *)
Definition savings_to_debt (total_savings arg_total_debt : pynum)
  : prog Budget pynum :=
  q <- truediv total_savings arg_total_debt ;;
  mul q (Int 100).

(** [Budget.emergency_fund_ratio(self, total_emergency_savings,
    monthly_expenses)]: the one ratio that is not a percentage. *)
Definition emergency_fund_ratio (total_emergency_savings
                                 monthly_expenses : pynum)
  : prog Budget pynum :=
  truediv total_emergency_savings monthly_expenses.

(** [Budget.mortgage_to_income(self, monthly_mortgage_payment,
    gross_monthly_income)] *)
Definition mortgage_to_income (monthly_mortgage_payment
                               gross_monthly_income : pynum)
  : prog Budget pynum :=
  q <- truediv monthly_mortgage_payment gross_monthly_income ;;
  mul q (Int 100).

(** [Budget.debt_to_net_worth(self, total_debt, net_worth)] *)
Definition debt_to_net_worth (arg_total_debt arg_net_worth : pynum)
  : prog Budget pynum :=
  q <- truediv arg_total_debt arg_net_worth ;;
  mul q (Int 100).

(** [Budget.debt_repayment_ratio(self, annual_debt_payments,
    gross_annual_income)] *)
Definition debt_repayment_ratio (annual_debt_payments
                                 gross_annual_income : pynum)
  : prog Budget pynum :=
  q <- truediv annual_debt_payments gross_annual_income ;;
  mul q (Int 100).

End Budget.

End BudgetHandler.

(* ================================================================== *)
(** * Vocabulary of the statements, and sample inputs *)
(* ================================================================== *)

Module Vocabulary.

Import PyStr Py MenuHandler BudgetHandler.
#[local] Open Scope Z_scope.

(** The position numbers of a menu are [1, 2, ..., len]. *)
Definition numbered_from_one (options : list menu_option) : Prop :=
  List.map number options = List.map Z.of_nat (seq 1 (List.length options)).

(** The options the registry holds under a name ([[]] if none). *)
Definition menu_of (active_user : pyvalue) (name : string) : list menu_option :=
  match lookup (lit name) (menu_holder active_user) with
  | Some options => options
  | None => []
  end.

(** The trace ends with the invocation of an action. *)
Definition ends_with_invoke (t : list event) : Prop :=
  exists t0 f, t = t0 ++ [Invoke f].

Section Turns.

Variable W : Type.
Variable behave : pyobject -> W -> outcome unit * W.

(** Every turn is one of six: the four that hand control back to the
    prompt (or to the action), and the two that raise before any action
    is looked up. *)
Inductive turn (options : list menu_option) (s : pystr) (w : W)
  : list event * outcome unit * W -> Prop :=
| turn_not_a_number :
    PyStr.isdigit s = false ->
    turn options s w
         ([Print (lit "Invalid input. Please enter a number.")], Returns tt, w)
| turn_out_of_range :
    turn options s w
         ([Print (lit "Invalid choice. Please select a valid number.")],
          Returns tt, w)
| turn_not_callable (o : menu_option) :
    In o options -> callable (action o) = false ->
    turn options s w
         ([Print (lit "'" ++ description o ++ lit "' is not a valid option.")],
          Returns tt, w)
| turn_invoke (o : menu_option) :
    In o options -> callable (action o) = true ->
    turn options s w (invoke behave (action o) w)
| turn_value_error :
    PyStr.isdigit s = true -> PyStr.int s = None ->
    turn options s w ([], Raises ValueError, w)
| turn_type_error :
    len options = 1 ->
    turn options s w ([], Raises TypeError, w).

End Turns.

(** A collaborator that returns at once and leaves the world alone. *)
Definition idle (f : pyobject) (w : unit) : outcome unit * unit :=
  (Returns tt, w).

(** A collaborator that counts the calls it receives. *)
Definition counting (f : pyobject) (w : nat) : outcome unit * nat :=
  (Returns tt, S w).

(** A two-option menu whose actions are both callable. *)
Definition two_callables : list menu_option :=
  [ MenuOption 1 (lit "Deposit") (Function (lit "deposit"));
    MenuOption 2 (lit "Exit") (Function (lit "exit")) ].

(** A menu with a single option. *)
Definition single_option : list menu_option :=
  [ MenuOption 1 (lit "Exit") (Function (lit "exit")) ].

(** Sample values for the constants of the budget module. *)
Definition sample_constants : constants :=
  {| ADD := PyStr (lit "add");
     REMOVE := PyStr (lit "remove");
     ESSENTIAL_EXPENSES := PyStr (lit "essential");
     NON_ESSENTIAL_EXPENSES := PyStr (lit "non essential");
     SAVINGS_AND_INVESTMENTS := PyStr (lit "savings");
     HOUSING := PyInt 1; UTILITIES := PyInt 2; GROCERIES := PyInt 3;
     TRANSPORTATION := PyInt 4; INSURANCE := PyInt 5; HEALTHCARE := PyInt 6;
     DEBT_PAYMENTS := PyInt 7; DINING_OUT := PyInt 8; ENTERTAINMENT := PyInt 9;
     PERSONAL_CARE := PyInt 10; CLOTHING := PyInt 11; EDUCATION := PyInt 12;
     HOBBIES_AND_LEISURE := PyInt 13; TRAVEL_VACATIONS := PyInt 14;
     GIFTS_DONATIONS := PyInt 15; EMERGENCY_FUND := PyInt 16;
     RETIREMENT_SAVINGS := PyInt 17; INVESTMENTS := PyInt 18;
     EDUCATION_SAVINGS := PyInt 19; MAJOR_PURCHASES := PyInt 20 |}.

(** A value is one of the dictionaries the ADD branch stores. *)
Definition is_debt_entry (v : pyvalue) : Prop :=
  exists debt_name debt_total, v = debt_entry debt_name debt_total.

(** Two budgets agree on every attribute but [current_debt]. *)
Definition same_but_current_debt {F : Type} (a b : Budget F) : Prop :=
  monthly_income a = monthly_income b /\
  expenses a = expenses b /\
  expense_budget_category a = expense_budget_category b /\
  budgets a = budgets b /\
  budget_alerts a = budget_alerts b /\
  total_debt a = total_debt b /\
  assets a = assets b /\
  checking_balance a = checking_balance b /\
  savings_balance a = savings_balance b /\
  credit_card_balances a = credit_card_balances b /\
  credit_card_limits a = credit_card_limits b /\
  net_worth a = net_worth b.

(** The events of a trace that are invocations. *)
Fixpoint invocations (t : list event) : list pyobject :=
  match t with
  | [] => []
  | Invoke f :: r => f :: invocations r
  | _ :: r => invocations r
  end.

(** The number of prompts shown in a trace. *)
Fixpoint prompts (t : list event) : nat :=
  match t with
  | [] => O
  | Prompt _ :: r => S (prompts r)
  | _ :: r => prompts r
  end.

(** The line [menu_choices] prints for an option. *)
Definition choice_line (o : menu_option) : pystr :=
  lit "(" ++ str (number o) ++ lit ") " ++ description o.

(** The action is a jump to the menu [key]: [lambda: menu_maker(key,
    active_user)]. *)
Definition jumps_to (active_user : pyvalue) (key : pystr) (f : pyobject)
  : Prop :=
  f = Lambda (lit "menu_maker") [PyStr key; active_user].

(** The number of digits up to which CPython converts between [int]
    and [str] (the default of [sys.get_int_max_str_digits()]). *)
Definition max_str_digits : Z := 4300.

(** The integer has at most [max_str_digits] decimal digits: [str(i)]
    and the formatting of [i] in an f-string do not raise. *)
Definition within_str_digits (i : Z) : Prop :=
  Z.abs i < 10 ^ max_str_digits.

(** A collaborator whose [exit] ends the process ([SystemExit]) and
    whose other actions count the calls and return. *)
Definition exiting (f : pyobject) (w : nat) : outcome unit * nat :=
  match f with
  | Function name =>
      if PyStr.eqb name (lit "exit") then (Raises SystemExit, w)
      else (Returns tt, S w)
  | _ => (Returns tt, S w)
  end.

End Vocabulary.

(* ================================================================== *)
(** * Facts about the string conversions *)
(* ================================================================== *)

Module PyStrFacts.

Import Unicode PyStr.
Module U := DecimalPos.Unsigned.

Lemma digits_nonempty (d : uint) : d <> Nil -> digits d <> [].
Proof. destruct d; simpl; congruence. Qed.

Lemma digits_all_ascii_digits (d : uint) :
  forallb is_ascii_digit (digits d) = true.
Proof. induction d; simpl; auto. Qed.

Lemma ascii_digit_isdigit (c : codepoint) :
  is_ascii_digit c = true -> Unicode.isdigit c = true.
Proof.
  unfold is_ascii_digit, in_range; simpl.
  rewrite andb_true_iff, !N.leb_le. intros [Hlo Hhi].
  assert (H : In c [48; 49; 50; 51; 52; 53; 54; 55; 56; 57]%N)
    by (simpl; lia).
  simpl in H.
  repeat (destruct H as [<- | H]; [ reflexivity | ]).
  contradiction.
Qed.

Lemma ascii_digit_to_ascii (c : codepoint) :
  is_ascii_digit c = true -> to_ascii c = Some c.
Proof.
  unfold is_ascii_digit, in_range, to_ascii; simpl.
  rewrite andb_true_iff, !N.leb_le. intros [Hlo Hhi].
  destruct (N.ltb_spec c 127); [ reflexivity | lia ].
Qed.

Lemma ascii_digit_not_space (c : codepoint) :
  is_ascii_digit c = true -> c_isspace c = false.
Proof.
  unfold is_ascii_digit, c_isspace, in_ranges, in_range; simpl.
  rewrite andb_true_iff, !N.leb_le. intros [Hlo Hhi].
  rewrite orb_false_r, orb_false_iff, !andb_false_iff, !N.leb_gt. lia.
Qed.

Lemma transform_ascii_digits (s : pystr) :
  forallb is_ascii_digit s = true -> transform_decimal_and_space s = Some s.
Proof.
  induction s as [ | c r IH ]; simpl; [ reflexivity | ].
  rewrite andb_true_iff. intros [Hc Hr].
  now rewrite (ascii_digit_to_ascii _ Hc), (IH Hr).
Qed.

(** Reading the digits of [d] after [acc] shifts [acc] left by the
    length of [d] and adds the number [d] writes. *)
Lemma scan_digits_digits (d : uint) (acc : Z) :
  scan_digits false acc (digits d) =
  Some ((acc * 10 ^ Z.of_N (U.usize d) + Z.of_N (U.of_lu (rev d)))%Z, []).
Proof.
  revert acc.
  induction d; intro acc;
    [ simpl; do 2 f_equal; lia | .. ];
    simpl digits; cbn [scan_digits];
    change (is_ascii_digit _) with true; cbv iota;
    unfold rev; simpl revapp; rewrite U.of_lu_revapp;
    rewrite IHd; do 2 f_equal;
    simpl U.usize; simpl U.of_lu;
    rewrite N2Z.inj_succ, Z.pow_succ_r by lia;
    rewrite N2Z.inj_add, N2Z.inj_mul, N2Z.inj_pow;
    simpl Z.of_N; lia.
Qed.

Lemma read_digits_digits (d : uint) :
  d <> Nil -> read_digits (digits d) = Some (Z.of_N (N.of_uint d)).
Proof.
  intro Hd.
  pose proof (digits_all_ascii_digits d) as Hall.
  pose proof (scan_digits_digits d 0) as Hscan.
  unfold N.of_uint. rewrite U.of_uint_alt.
  destruct (digits d) as [ | c r ] eqn:E;
    [ now apply digits_nonempty in E | ].
  simpl in Hall. apply andb_true_iff in Hall as [Hc _].
  unfold read_digits. rewrite Hc, Hscan. simpl. reflexivity.
Qed.

Lemma long_from_string_digits (d : uint) :
  d <> Nil -> long_from_string (digits d) = read_digits (digits d).
Proof.
  intro Hd.
  pose proof (digits_all_ascii_digits d) as Hall.
  destruct (digits d) as [ | c r ] eqn:E;
    [ now apply digits_nonempty in E | ].
  simpl in Hall. apply andb_true_iff in Hall as [Hc _].
  unfold long_from_string.
  cbn [skip_space]. rewrite (ascii_digit_not_space _ Hc).
  unfold is_ascii_digit, in_range in Hc; simpl in Hc.
  rewrite andb_true_iff, !N.leb_le in Hc.
  destruct (N.eqb_spec c 0x2b); [ lia | ].
  destruct (N.eqb_spec c 0x2d); [ lia | ].
  reflexivity.
Qed.

(** [int(str(i)) == i], whatever the sign of [i]. *)
Lemma int_str (i : Z) : int (str i) = Some i.
Proof.
  unfold int, str.
  destruct i as [ | p | p ]; simpl Z.to_int; cbv iota.
  - reflexivity.
  - pose proof (U.to_uint_nonnil p) as Hd.
    rewrite (transform_ascii_digits _ (digits_all_ascii_digits _)).
    rewrite (long_from_string_digits Hd), (read_digits_digits Hd).
    unfold N.of_uint. now rewrite U.of_to.
  - pose proof (U.to_uint_nonnil p) as Hd.
    cbn [transform_decimal_and_space].
    rewrite (transform_ascii_digits _ (digits_all_ascii_digits _)).
    change (to_ascii 45%N) with (Some 45%N). cbv iota.
    unfold long_from_string. cbn [skip_space].
    change (c_isspace 45%N) with false. cbv iota.
    change (45 =? 43)%N with false. change (45 =? 45)%N with true. cbv iota.
    rewrite (read_digits_digits Hd).
    unfold N.of_uint. now rewrite U.of_to.
Qed.

Lemma isdigit_digits (d : uint) : d <> Nil -> isdigit (digits d) = true.
Proof.
  intro Hd. pose proof (digits_all_ascii_digits d) as Hall.
  unfold isdigit.
  destruct (digits d) as [ | c r ] eqn:E;
    [ now apply digits_nonempty in E | ].
  clear E. revert Hall. generalize (c :: r). intros s Hs.
  induction s as [ | a s IH ]; [ reflexivity | ].
  simpl in *. apply andb_true_iff in Hs as [Ha Hs].
  now rewrite (ascii_digit_isdigit _ Ha), IH.
Qed.

(** [str(i).isdigit()] holds exactly for the integers that carry no
    sign. *)
Lemma isdigit_str_nonneg (i : Z) : (0 <= i)%Z -> isdigit (str i) = true.
Proof.
  unfold str. destruct i as [ | p | p ]; simpl Z.to_int; cbv iota; intro H.
  - reflexivity.
  - apply isdigit_digits, U.to_uint_nonnil.
  - lia.
Qed.

Lemma isdigit_str_neg (i : Z) : (i < 0)%Z -> isdigit (str i) = false.
Proof.
  unfold str. destruct i as [ | p | p ]; simpl Z.to_int; cbv iota; intro H;
    try lia.
  reflexivity.
Qed.

(** A string with a character that is no digit is no digit string. *)
Lemma isdigit_false_of_nondigit (s : pystr) (c : codepoint) :
  In c s -> Unicode.isdigit c = false -> isdigit s = false.
Proof.
  intros Hin Hc. unfold isdigit.
  destruct s as [ | a r ]; [ reflexivity | ].
  apply not_true_is_false. intro Hall.
  rewrite forallb_forall in Hall. specialize (Hall c Hin). congruence.
Qed.

(** White space is never a digit. *)
Lemma isspace_not_isdigit (c : codepoint) :
  Unicode.isspace c = true -> Unicode.isdigit c = false.
Proof.
  intro H.
  assert (Hc : In c [ 0x9; 0xa; 0xb; 0xc; 0xd; 0x1c; 0x1d; 0x1e; 0x1f; 0x20;
                      0x85; 0xa0; 0x1680; 0x2000; 0x2001; 0x2002; 0x2003;
                      0x2004; 0x2005; 0x2006; 0x2007; 0x2008; 0x2009; 0x200a;
                      0x2028; 0x2029; 0x202f; 0x205f; 0x3000 ]%N).
  { unfold Unicode.isspace, in_ranges, wide_space_ranges, in_range in H.
    simpl in H.
    rewrite !orb_true_iff, !andb_true_iff, !N.leb_le in H.
    simpl. lia. }
  simpl in Hc.
  repeat (destruct Hc as [<- | Hc]; [ reflexivity | ]).
  contradiction.
Qed.

(** Every integer below a thousand million is within the limit of the
    conversions. *)
Lemma small_within_str_digits (i : Z) :
  (Z.abs i < 10 ^ 9)%Z -> Vocabulary.within_str_digits i.
Proof.
  unfold Vocabulary.within_str_digits, Vocabulary.max_str_digits.
  intro H. eapply Z.lt_trans; [ exact H | ].
  apply Z.pow_lt_mono_r; lia.
Qed.

Lemma short_within_max_str_digits (s : pystr) :
  (Z.of_nat (List.length s) <= 9)%Z ->
  (Z.of_nat (List.length s) <= Vocabulary.max_str_digits)%Z.
Proof. unfold Vocabulary.max_str_digits. lia. Qed.

End PyStrFacts.

(* ================================================================== *)
(** * Laws of the monad *)
(* ================================================================== *)

Module ProgFacts.

Import Py.
#[local] Open Scope prog_scope.

Section Laws.

Variable S : Type.

Lemma bind_ret {A B} (a : A) (k : A -> prog S B) (s : S) :
  (x <- ret a ;; k x) s = k a s.
Proof.
  unfold bind, ret. destruct (k a s) as [[t o] s']. reflexivity.
Qed.

Lemma bind_raise {A B} (e : exn) (k : A -> prog S B) (s : S) :
  (x <- raise e ;; k x) s = raise e s.
Proof. reflexivity. Qed.

Lemma bind_congr {A B} (m m' : prog S A) (k : A -> prog S B) (s : S) :
  m s = m' s -> bind m k s = bind m' k s.
Proof. unfold bind. now intros ->. Qed.

Lemma bind_congr_r {A B} (m : prog S A) (k k' : A -> prog S B) (s : S) :
  (forall a s', k a s' = k' a s') -> bind m k s = bind m k' s.
Proof.
  intro H. unfold bind. destruct (m s) as [[t [a | e | ]] s1]; auto.
  now rewrite H.
Qed.

Lemma bind_assoc {A B C} (m : prog S A) (k : A -> prog S B)
      (h : B -> prog S C) (s : S) :
  (y <- (x <- m ;; k x) ;; h y) s = (x <- m ;; y <- k x ;; h y) s.
Proof.
  unfold bind. destruct (m s) as [[t1 [a | e | ]] s1]; try reflexivity.
  destruct (k a s1) as [[t2 [b | e | ]] s2]; try reflexivity.
  destruct (h b s2) as [[t3 o] s3]. now rewrite app_assoc.
Qed.

End Laws.

End ProgFacts.

(* ================================================================== *)
(** * The choice loop *)
(* ================================================================== *)

Module MenuHandlerFacts.

Import Unicode PyStr Py MenuHandler Vocabulary PyStrFacts ProgFacts.
#[local] Open Scope prog_scope.
#[local] Open Scope Z_scope.

Lemma numbered_from_one_nth (options : list menu_option) (k : nat)
      (o : menu_option) :
  numbered_from_one options ->
  nth_error options k = Some o ->
  number o = Z.of_nat (S k).
Proof.
  unfold numbered_from_one. intros Hnum Hk.
  assert (Hlt : (k < List.length options)%nat)
    by (apply nth_error_Some; congruence).
  apply (map_nth_error number) in Hk. rewrite Hnum in Hk.
  rewrite (map_nth_error Z.of_nat k (seq 1 (List.length options))
             (d := S k)) in Hk.
  - congruence.
  - rewrite nth_error_nth' with (d := O) by (rewrite length_seq; lia).
    now rewrite seq_nth.
Qed.

Section Engine.

Variable W : Type.
Variable behave : pyobject -> W -> outcome unit * W.

#[local] Abbreviation body := (get_user_choice_body behave).
#[local] Abbreviation loop := (get_user_choice behave).
#[local] Abbreviation prompt := (emit (S := W) (Prompt (lit "Choice: "))).

(** A turn that behaves like [m] makes the loop behave like: prompt,
    [m], the loop again on the same options. *)
Lemma loop_step (options : list menu_option) (s : pystr)
      (rest : list pystr) (m : prog W unit) (w : W) :
  body options s w = m w ->
  loop options (s :: rest) w = (prompt ;; m ;; loop options rest) w.
Proof.
  intro H. cbn [get_user_choice].
  unfold bind at 1 3. unfold emit.
  now rewrite (@bind_congr _ _ _ (body options s) m _ w H).
Qed.

Lemma body_not_a_number (options : list menu_option) (s : pystr) (w : W) :
  PyStr.isdigit s = false ->
  body options s w = print (lit "Invalid input. Please enter a number.") w.
Proof. unfold get_user_choice_body. now intros ->. Qed.

Lemma body_not_decimal (options : list menu_option) (s : pystr) (w : W) :
  PyStr.isdigit s = true -> PyStr.int s = None ->
  body options s w = raise ValueError w.
Proof.
  unfold get_user_choice_body, int_of. intros -> ->. reflexivity.
Qed.

Lemma body_single (options : list menu_option) (s : pystr) (i : Z) (w : W) :
  PyStr.isdigit s = true -> PyStr.int s = Some i -> len options = 1 ->
  body options s w = raise TypeError w.
Proof.
  unfold get_user_choice_body, int_of. intros -> -> ->.
  rewrite bind_ret. reflexivity.
Qed.

Lemma body_out_of_range (options : list menu_option) (s : pystr) (i : Z)
      (w : W) :
  PyStr.isdigit s = true -> PyStr.int s = Some i -> len options <> 1 ->
  ~ (1 <= i <= len options) ->
  body options s w =
  print (lit "Invalid choice. Please select a valid number.") w.
Proof.
  unfold get_user_choice_body, int_of. intros -> -> Hlen Hout.
  destruct (Z.eqb_spec (len options) 1) as [ | _ ]; [ contradiction | ].
  rewrite !bind_ret.
  destruct (Z.leb_spec 1 i), (Z.leb_spec i (len options));
    try reflexivity.
  lia.
Qed.

Lemma body_in_range (options : list menu_option) (s : pystr) (i : Z)
      (o : menu_option) (w : W) :
  PyStr.isdigit s = true -> PyStr.int s = Some i -> len options <> 1 ->
  1 <= i <= len options ->
  nth_error options (Z.to_nat (i - 1)) = Some o ->
  body options s w =
  (if callable (action o)
   then invoke behave (action o)
   else print (lit "'" ++ description o ++ lit "' is not a valid option.")) w.
Proof.
  unfold get_user_choice_body, int_of. intros -> -> Hlen Hin Hnth.
  destruct (Z.eqb_spec (len options) 1) as [ | _ ]; [ contradiction | ].
  rewrite !bind_ret.
  destruct (Z.leb_spec 1 i); [ | lia ].
  destruct (Z.leb_spec i (len options)); [ | lia ].
  cbn [andb]. unfold getitem.
  destruct (Z.ltb_spec (i - 1) 0); [ lia | ].
  destruct (Z.ltb_spec (i - 1) 0); [ lia | ].
  rewrite Hnth, bind_ret. unfold call.
  now destruct (callable (action o)).
Qed.


(** ** What one turn can be *)

Lemma not_a_number_reprompts (options : list menu_option) (s : pystr)
      (rest : list pystr) (w : W) :
  PyStr.isdigit s = false ->
  loop options (s :: rest) w =
  (prompt ;;
   print (lit "Invalid input. Please enter a number.") ;;
   loop options rest) w.
Proof. intro H. apply loop_step. now apply body_not_a_number. Qed.

Lemma body_turn (options : list menu_option) (s : pystr) (w : W) :
  turn behave options s w (body options s w).
Proof.
  destruct (PyStr.isdigit s) eqn:Hd.
  - destruct (PyStr.int s) as [ i | ] eqn:Hi.
    + destruct (Z.eq_dec (len options) 1) as [ H1 | H1 ].
      * rewrite (@body_single options s i w Hd Hi H1). now apply turn_type_error.
      * destruct (Z_le_dec 1 i) as [ Hlo | Hlo ];
          [ destruct (Z_le_dec i (len options)) as [ Hhi | Hhi ] | ].
        -- destruct (nth_error options (Z.to_nat (i - 1))) as [ o | ] eqn:Hn.
           ++ rewrite (@body_in_range options s i o w Hd Hi H1 (conj Hlo Hhi) Hn).
              pose proof (nth_error_In _ _ Hn) as Hin.
              destruct (callable (action o)) eqn:Hc.
              ** now apply turn_invoke.
              ** now apply turn_not_callable.
           ++ apply nth_error_None in Hn. unfold len in Hhi. lia.
        -- rewrite (@body_out_of_range options s i w Hd Hi H1) by lia.
           apply turn_out_of_range.
        -- rewrite (@body_out_of_range options s i w Hd Hi H1) by lia.
           apply turn_out_of_range.
    + rewrite (@body_not_decimal options s w Hd Hi). now apply turn_value_error.
  - rewrite (@body_not_a_number options s w Hd). now apply turn_not_a_number.
Qed.

(** The loop after a turn that came back. *)
Lemma loop_after_turn (options : list menu_option) (s : pystr)
      (rest : list pystr) (w w' : W) (t : list event) :
  body options s w = (t, Returns tt, w') ->
  loop options (s :: rest) w =
  (let '(t', o, w'') := loop options rest w' in
   (Prompt (lit "Choice: ") :: t ++ t', o, w'')).
Proof.
  intro H. cbn [get_user_choice]. unfold bind at 1. unfold emit.
  unfold bind at 1. rewrite H.
  destruct (loop options rest w') as [[t' o] w'']. reflexivity.
Qed.

Lemma loop_leaves_turn (options : list menu_option) (s : pystr)
      (rest : list pystr) (w w' : W) (t : list event) (o : outcome unit) :
  body options s w = (t, o, w') -> o <> Returns tt ->
  loop options (s :: rest) w = (Prompt (lit "Choice: ") :: t, o, w').
Proof.
  intros H Ho. cbn [get_user_choice]. unfold bind at 1. unfold emit.
  unfold bind at 1. rewrite H.
  destruct o as [ [] | e | ]; [ contradiction | reflexivity | reflexivity ].
Qed.

Lemma loop_never_returns (options : list menu_option) (inputs : list pystr)
      (w : W) :
  snd (fst (loop options inputs w)) <> Returns tt.
Proof.
  revert w. induction inputs as [ | s rest IH ]; intro w.
  - cbn. discriminate.
  - destruct (body options s w) as [[t o] w'] eqn:Hb.
    destruct o as [ [] | e | ].
    + rewrite (@loop_after_turn options s rest w w' t Hb). specialize (IH w').
      destruct (loop options rest w') as [[t' o'] w'']. exact IH.
    + rewrite (@loop_leaves_turn options s rest w w' t _ Hb); [ | discriminate ].
      cbn. discriminate.
    + rewrite (@loop_leaves_turn options s rest w w' t _ Hb); [ | discriminate ].
      cbn. discriminate.
Qed.

Lemma ends_with_invoke_cons (e : event) (t : list event) :
  ends_with_invoke t -> ends_with_invoke (e :: t).
Proof. intros (t0 & f & ->). now exists (e :: t0), f. Qed.

Lemma ends_with_invoke_app (t1 t2 : list event) :
  ends_with_invoke t2 -> ends_with_invoke (t1 ++ t2).
Proof.
  intros (t0 & f & ->). exists (t1 ++ t0), f. now rewrite app_assoc.
Qed.

Lemma loop_diverges_in_action (options : list menu_option)
      (inputs : list pystr) (w : W) :
  snd (fst (loop options inputs w)) = Diverges ->
  ends_with_invoke (fst (fst (loop options inputs w))).
Proof.
  revert w. induction inputs as [ | s rest IH ]; intro w.
  - cbn. discriminate.
  - pose proof (body_turn options s w) as Hturn.
    destruct (body options s w) as [[t o] w'] eqn:Hb.
    destruct o as [ [] | e | ].
    + rewrite (@loop_after_turn options s rest w w' t Hb). specialize (IH w').
      destruct (loop options rest w') as [[t' o'] w'']. cbn in *.
      intro Ho. apply ends_with_invoke_cons, ends_with_invoke_app. auto.
    + rewrite (@loop_leaves_turn options s rest w w' t _ Hb); [ | discriminate ].
      cbn. discriminate.
    + rewrite (@loop_leaves_turn options s rest w w' t _ Hb); [ | discriminate ].
      cbn. intros _.
      inversion Hturn as [ | | | o Hin Hc Hinv | | ].
      unfold invoke in Hinv.
      destruct (behave (action o) w) as [r w1].
      injection Hinv as <- _ _.
      now exists [Prompt (lit "Choice: ")], (action o).
Qed.

(** ** The claims about the loop *)

(** C1 (amended).  For every options list with at least two options and
    every integer [i] with [1 <= i <= len(options)], the input [str(i)]
    selects the tuple at index [i - 1]; its number is [i] whenever the
    list is numbered [1..len].  When the action of that tuple is
    callable, the turn consists of exactly one invocation, of that
    action, and of nothing else; when the action returns, the loop
    prompts again on the same options, and when it raises or never
    returns, the loop ends there with the outcome of the action. *)
Theorem selection_invokes_the_indexed_action
        (options : list menu_option) (i : Z) (rest : list pystr) (w : W) :
  2 <= len options ->
  1 <= i <= len options ->
  exists o,
    nth_error options (Z.to_nat (i - 1)) = Some o /\
    (numbered_from_one options -> number o = i) /\
    (callable (action o) = true ->
     body options (str i) w = invoke behave (action o) w /\
     fst (fst (body options (str i) w)) = [Invoke (action o)] /\
     loop options (str i :: rest) w =
     (prompt ;; invoke behave (action o) ;; loop options rest) w /\
     (forall w',
         behave (action o) w = (Returns tt, w') ->
         loop options (str i :: rest) w =
         (let '(t, r, w'') := loop options rest w' in
          (Prompt (lit "Choice: ") :: Invoke (action o) :: t, r, w''))) /\
     (forall r w',
         behave (action o) w = (r, w') -> r <> Returns tt ->
         loop options (str i :: rest) w =
         ([Prompt (lit "Choice: "); Invoke (action o)], r, w'))).
Proof.
  intros Hlen Hi.
  destruct (nth_error options (Z.to_nat (i - 1))) as [ o | ] eqn:Hn;
    [ | apply nth_error_None in Hn; unfold len in Hi; lia ].
  exists o. split; [ reflexivity | ]. split.
  - intro Hnum. rewrite (numbered_from_one_nth _ Hnum Hn). lia.
  - intro Hc.
    assert (Hbody : body options (str i) w = invoke behave (action o) w).
    { rewrite (@body_in_range options (str i) i o w); auto.
      + now rewrite Hc.
      + apply isdigit_str_nonneg. lia.
      + apply int_str.
      + lia. }
    split; [ exact Hbody | ]. split; [ | split; [ | split ] ].
    + rewrite Hbody. unfold invoke.
      now destruct (behave (action o) w).
    + now apply loop_step.
    + intros w' Hb.
      rewrite (@loop_after_turn options (str i) rest w w'
                 [Invoke (action o)]).
      * now destruct (loop options rest w') as [[t r] w''].
      * rewrite Hbody. unfold invoke. now rewrite Hb.
    + intros r w' Hb Hr.
      apply (@loop_leaves_turn options (str i) rest w w'
               [Invoke (action o)] r); [ | exact Hr ].
      rewrite Hbody. unfold invoke. now rewrite Hb.
Qed.

(** C2.  The superscript two is a digit for [isdigit] and no number for
    [int]: on that input the loop neither prints nor prompts again, the
    [ValueError] of [int] leaves [get_user_choice], whatever the menu. *)
Theorem superscript_two_leaves_the_loop
        (options : list menu_option) (rest : list pystr) (w : W) :
  PyStr.isdigit [0xb2%N] = true /\
  PyStr.int [0xb2%N] = None /\
  loop options ([0xb2%N] :: rest) w =
  ([Prompt (lit "Choice: ")], Raises ValueError, w).
Proof.
  split; [ reflexivity | ]. split; [ reflexivity | ].
  apply (@loop_leaves_turn options [0xb2%N] rest w w [] (Raises ValueError));
    [ | discriminate ].
  now apply body_not_decimal.
Qed.

(** C3 (amended).  For every options list with at least two options and
    every integer [i] outside [1..len(options)] that [str] can write
    (at most [max_str_digits] digits): when [i] is zero or above
    [len(options)], [str(i)] is answered by "Invalid choice.  Please
    select a valid number."; when [i] is negative, [str(i)] carries a
    sign and is answered by "Invalid input.  Please enter a number.".
    Either way nothing is invoked and the loop prompts again on the
    same options. *)
Theorem out_of_range_choice_reprompts
        (options : list menu_option) (i : Z) (rest : list pystr) (w : W) :
  2 <= len options ->
  ~ (1 <= i <= len options) ->
  within_str_digits i ->
  (0 <= i ->
   loop options (str i :: rest) w =
   (prompt ;;
    print (lit "Invalid choice. Please select a valid number.") ;;
    loop options rest) w) /\
  (i < 0 ->
   loop options (str i :: rest) w =
   (prompt ;;
    print (lit "Invalid input. Please enter a number.") ;;
    loop options rest) w).
Proof.
  intros Hlen Hout _. split; intro Hi.
  - apply loop_step. apply body_out_of_range with (i := i); auto.
    + now apply isdigit_str_nonneg.
    + apply int_str.
    + lia.
  - apply not_a_number_reprompts. now apply isdigit_str_neg.
Qed.

(** C6 (amended).  For an options list with exactly one option the
    input is still validated first: an input that is not a digit string
    is answered by "Invalid input. Please enter a number.", invokes
    nothing, and the loop prompts again. *)
Theorem single_option_input_is_validated
        (o : menu_option) (s : pystr) (rest : list pystr) (w : W) :
  PyStr.isdigit s = false ->
  loop [o] (s :: rest) w =
  (prompt ;;
   print (lit "Invalid input. Please enter a number.") ;;
   loop [o] rest) w.
Proof.
  intro H. apply loop_step. now apply body_not_a_number.
Qed.

(** On a single-option list a digit string never reaches the option:
    the call of the list itself raises. *)
Lemma single_option_digit_raises
      (o : menu_option) (s : pystr) (i : Z) (rest : list pystr) (w : W) :
  PyStr.isdigit s = true -> PyStr.int s = Some i ->
  loop [o] (s :: rest) w = ([Prompt (lit "Choice: ")], Raises TypeError, w).
Proof.
  intros Hd Hi.
  apply (@loop_leaves_turn [o] s rest w w [] (Raises TypeError));
    [ | discriminate ].
  now apply body_single with (i := i).
Qed.

(** C7 (amended).  An integer literal with white space before or after
    it is not an accepted selection: the loop answers "Invalid input.
    Please enter a number.", invokes nothing and prompts again.  Only the
    bare digit string selects. *)
Theorem padded_literal_is_rejected
        (options : list menu_option) (before after : pystr) (i : Z)
        (rest : list pystr) (w : W) :
  Forall (fun c => Unicode.isspace c = true) before ->
  Forall (fun c => Unicode.isspace c = true) after ->
  before ++ after <> [] ->
  loop options ((before ++ str i ++ after) :: rest) w =
  (prompt ;;
   print (lit "Invalid input. Please enter a number.") ;;
   loop options rest) w.
Proof.
  intros Hb Ha Hne.
  apply not_a_number_reprompts.
  assert (Hc : exists c, In c (before ++ after) /\ Unicode.isspace c = true).
  { destruct (before ++ after) as [ | c r ] eqn:E; [ contradiction | ].
    exists c. split; [ now left | ].
    assert (Hin : In c (before ++ after)) by (rewrite E; now left).
    apply in_app_or in Hin as [ Hin | Hin ].
    - exact (proj1 (Forall_forall _ _) Hb c Hin).
    - exact (proj1 (Forall_forall _ _) Ha c Hin). }
  destruct Hc as (c & Hin & Hsp).
  apply isdigit_false_of_nondigit with (c := c).
  - apply in_app_or in Hin. rewrite !in_app_iff. tauto.
  - now apply isspace_not_isdigit.
Qed.

(** C8 (amended).  [get_user_choice] never returns normally.  After
    every turn that comes back (invalid input, out-of-range number,
    non-callable action, or a callable action that was invoked and
    returned) control is at the prompt of the same loop, on the same
    options.  The loop is left only abruptly: by an exception that
    escapes a turn or the prompt, or by an invoked action that never
    returns. *)
Theorem get_user_choice_has_no_normal_exit
        (options : list menu_option) (inputs : list pystr) (w : W) :
  snd (fst (loop options inputs w)) <> Returns tt /\
  (forall s rest t w',
      inputs = s :: rest ->
      body options s w = (t, Returns tt, w') ->
      loop options inputs w =
      (let '(t', o, w'') := loop options rest w' in
       (Prompt (lit "Choice: ") :: t ++ t', o, w''))) /\
  (forall s rest,
      inputs = s :: rest ->
      turn behave options s w (body options s w)) /\
  (snd (fst (loop options inputs w)) = Diverges ->
   ends_with_invoke (fst (fst (loop options inputs w)))).
Proof.
  split; [ apply loop_never_returns | ]. split.
  - intros s rest t w' -> Hb. now apply loop_after_turn.
  - split.
    + intros s rest _. apply body_turn.
    + apply loop_diverges_in_action.
Qed.

End Engine.

(** ** The registry *)

Lemma eqb_eq (s t : pystr) : PyStr.eqb s t = true -> s = t.
Proof.
  unfold PyStr.eqb. destruct (list_eq_dec N.eq_dec s t); congruence.
Qed.

Lemma lookup_In {A : Type} (k : pystr) (d : list (pystr * A)) (v : A) :
  lookup k d = Some v -> In (k, v) d.
Proof.
  induction d as [ | [k' v'] d IH ]; cbn [lookup]; [ discriminate | ].
  destruct (PyStr.eqb k k') eqn:E.
  - intros [= ->]. apply eqb_eq in E as ->. now left.
  - intro H. right. auto.
Qed.

Lemma registry_numbered (active_user : pyvalue) :
  Forall (fun e => numbered_from_one (snd e)) (menu_holder active_user).
Proof. unfold menu_holder. repeat constructor. Qed.

Lemma numbered_from_one_NoDup (options : list menu_option) :
  numbered_from_one options -> NoDup (List.map number options).
Proof.
  unfold numbered_from_one. intros ->.
  apply Injective_map_NoDup; [ | apply seq_NoDup ].
  intros x y. apply Nat2Z.inj.
Qed.

Lemma numbered_from_one_range (options : list menu_option) (k : Z) :
  numbered_from_one options ->
  In k (List.map number options) <-> 1 <= k <= len options.
Proof.
  unfold numbered_from_one, len. intros ->.
  rewrite in_map_iff. split.
  - intros (n & <- & Hn). apply in_seq in Hn. lia.
  - intro Hk. exists (Z.to_nat k). split; [ lia | ].
    apply in_seq. lia.
Qed.

Lemma budgeted_options (active_user : pyvalue) :
  menu_of active_user "Budgeted" =
  [ MenuOption 1 (lit "Current Budget") (Value (PyStr (lit "test")));
    MenuOption 2 (lit "New Budget") (Value (PyStr (lit "test")));
    MenuOption 3 (lit "Remove Budget") (Value (PyStr (lit "test")));
    MenuOption 4 (lit "Update Budget") (Value (PyStr (lit "test")));
    MenuOption 5 (lit "Return to Main Menu") (Function (lit "main_menu")) ].
Proof. reflexivity. Qed.

(** C4.  For every session context and every menu of the registry that
    [menu_holder] returns, the position numbers of the menu are
    [1, 2, ..., len], in that order: no gap, no duplicate, and a number
    is a position exactly when it lies between 1 and the length. *)
Theorem registry_positions_are_one_to_len
        (active_user : pyvalue) (name : pystr) (options : list menu_option) :
  lookup name (menu_holder active_user) = Some options ->
  List.map number options = List.map Z.of_nat (seq 1 (List.length options)) /\
  NoDup (List.map number options) /\
  (forall k, In k (List.map number options) <-> 1 <= k <= len options).
Proof.
  intro H. apply lookup_In in H.
  pose proof (registry_numbered active_user) as Hall.
  rewrite Forall_forall in Hall. specialize (Hall _ H). cbn [snd] in Hall.
  split; [ exact Hall | ]. split.
  - now apply numbered_from_one_NoDup.
  - intro k. now apply numbered_from_one_range.
Qed.

Lemma registry_positions_witness :
  lookup (lit "Budgeted") (menu_holder PyNone)
  = Some (menu_of PyNone "Budgeted") /\
  List.map number (menu_of PyNone "Budgeted") = [1; 2; 3; 4; 5].
Proof.
  split; [ reflexivity | ].
  apply (registry_positions_are_one_to_len PyNone (lit "Budgeted")).
  reflexivity.
Defined.

Section Budgeted.

Variable W : Type.
Variable behave : pyobject -> W -> outcome unit * W.

(** C5.  On the "Budgeted" menu (five options, the first bound to the
    string 'test'), the input "1" prints "'Current Budget' is not a
    valid option.", invokes nothing, raises nothing, leaves the world
    as it was, and hands control back to the prompt of the same menu;
    so it does when the menu was entered through [menu_maker]. *)
Theorem budgeted_first_option_is_reported
        (active_user : pyvalue) (rest : list pystr) (w : W) :
  len (menu_of active_user "Budgeted") = 5 /\
  nth_error (menu_of active_user "Budgeted") 0 =
  Some (MenuOption 1 (lit "Current Budget") (Value (PyStr (lit "test")))) /\
  get_user_choice_body behave (menu_of active_user "Budgeted") (lit "1") w =
  ([Print (lit "'Current Budget' is not a valid option.")], Returns tt, w) /\
  get_user_choice behave (menu_of active_user "Budgeted") (lit "1" :: rest) w =
  (emit (Prompt (lit "Choice: ")) ;;
   print (lit "'Current Budget' is not a valid option.") ;;
   get_user_choice behave (menu_of active_user "Budgeted") rest) w /\
  menu_maker behave (lit "Budgeted") active_user (lit "1" :: rest) w =
  (menu_header (lit "Budgeted") ;;
   menu_choices (menu_of active_user "Budgeted") ;;
   emit (Prompt (lit "Choice: ")) ;;
   print (lit "'Current Budget' is not a valid option.") ;;
   get_user_choice behave (menu_of active_user "Budgeted") rest) w.
Proof.
  assert (Hbody :
    get_user_choice_body behave (menu_of active_user "Budgeted") (lit "1") w =
    ([Print (lit "'Current Budget' is not a valid option.")], Returns tt, w))
    by reflexivity.
  assert (Hloop :
    get_user_choice behave (menu_of active_user "Budgeted") (lit "1" :: rest) w =
    (emit (Prompt (lit "Choice: ")) ;;
     print (lit "'Current Budget' is not a valid option.") ;;
     get_user_choice behave (menu_of active_user "Budgeted") rest) w)
    by (apply loop_step; exact Hbody).
  repeat split; try reflexivity; assumption.
Qed.

End Budgeted.

(** ** Concrete runs *)

Example int_of_padded_one : PyStr.int (lit " 1 ") = Some 1.
Proof. reflexivity. Qed.

Example isdigit_of_padded_one : PyStr.isdigit (lit " 1 ") = false.
Proof. reflexivity. Qed.

Example arabic_indic_three :
  PyStr.isdigit [0x663%N] = true /\ PyStr.int [0x663%N] = Some 3.
Proof. split; reflexivity. Qed.

Example str_of_minus_one : str (-1) = lit "-1".
Proof. reflexivity. Qed.

Example two_callables_run :
  get_user_choice counting two_callables [lit "1"; lit "x"; lit "3"] 0%nat =
  ([ Prompt (lit "Choice: "); Invoke (Function (lit "deposit"));
     Prompt (lit "Choice: ");
     Print (lit "Invalid input. Please enter a number.");
     Prompt (lit "Choice: ");
     Print (lit "Invalid choice. Please select a valid number.");
     Prompt (lit "Choice: ") ],
   Raises EOFError, 1%nat).
Proof. reflexivity. Qed.

(** C1, as stated, fails: on the "Budgeted" menu the input "1" is in
    range, and the turn invokes nothing. *)
Lemma selection_of_a_placeholder_invokes_nothing :
  ~ (forall (options : list menu_option) (i : Z),
        1 <= i <= len options ->
        exists o,
          nth_error options (Z.to_nat (i - 1)) = Some o /\
          fst (fst (get_user_choice_body idle options (str i) tt))
          = [Invoke (action o)]).
Proof.
  intro H.
  destruct (H (menu_of PyNone "Budgeted") 1) as (o & Hn & Ht).
  - rewrite budgeted_options. unfold len. simpl. lia.
  - rewrite budgeted_options in Hn, Ht.
    cbn in Hn. injection Hn as <-.
    vm_compute in Ht. discriminate.
Qed.

Lemma selection_invokes_the_indexed_action_witness :
  2 <= len two_callables /\
  1 <= 1 <= len two_callables /\
  get_user_choice counting two_callables [str 1; lit "x"] 0%nat =
  ([ Prompt (lit "Choice: "); Invoke (Function (lit "deposit"));
     Prompt (lit "Choice: ");
     Print (lit "Invalid input. Please enter a number.");
     Prompt (lit "Choice: ") ],
   Raises EOFError, 1%nat).
Proof.
  assert (H2 : 2 <= len two_callables) by (unfold len; simpl; lia).
  assert (Hi : 1 <= 1 <= len two_callables) by (unfold len; simpl; lia).
  split; [ exact H2 | ]. split; [ exact Hi | ].
  destruct (@selection_invokes_the_indexed_action nat counting two_callables
              1 [lit "x"] 0%nat H2 Hi) as (o & Hn & _ & Hc).
  injection Hn as <-.
  destruct (Hc eq_refl) as (_ & _ & _ & Hreturns & _).
  exact (Hreturns 1%nat eq_refl).
Defined.

(** C3, as stated, fails: [str(-1)] is "-1", which is answered by the
    message for an input that is no number. *)
Lemma negative_choice_is_not_out_of_range :
  ~ (forall (options : list menu_option) (i : Z),
        2 <= len options ->
        ~ (1 <= i <= len options) ->
        get_user_choice_body idle options (str i) tt =
        ([Print (lit "Invalid choice. Please select a valid number.")],
         Returns tt, tt)).
Proof.
  intro H. specialize (H two_callables (-1)).
  assert (H2 : 2 <= len two_callables) by (unfold len; simpl; lia).
  assert (Ho : ~ (1 <= -1 <= len two_callables)) by lia.
  specialize (H H2 Ho). vm_compute in H. discriminate.
Qed.

Lemma out_of_range_choice_reprompts_witness :
  2 <= len two_callables /\
  ~ (1 <= 7 <= len two_callables) /\
  within_str_digits 7 /\
  get_user_choice idle two_callables [str 7] tt =
  (emit (Prompt (lit "Choice: ")) ;;
   print (lit "Invalid choice. Please select a valid number.") ;;
   get_user_choice idle two_callables []) tt.
Proof.
  assert (H2 : 2 <= len two_callables) by (unfold len; simpl; lia).
  assert (Ho : ~ (1 <= 7 <= len two_callables)) by (unfold len; simpl; lia).
  assert (Hd : within_str_digits 7)
    by (apply small_within_str_digits; reflexivity).
  split; [ exact H2 | ]. split; [ exact Ho | ]. split; [ exact Hd | ].
  apply (out_of_range_choice_reprompts idle two_callables [] tt H2 Ho Hd).
  lia.
Defined.

(** C6, as stated, fails: on a single-option menu the input "abc"
    invokes nothing. *)
Lemma single_option_ignores_a_word :
  ~ (forall (o : menu_option) (s : pystr),
        fst (fst (get_user_choice_body idle [o] s tt)) = [Invoke (action o)]).
Proof.
  intro H.
  specialize (H (MenuOption 1 (lit "Exit") (Function (lit "exit")))
                (lit "abc")).
  vm_compute in H. discriminate.
Qed.

Lemma single_option_input_is_validated_witness :
  PyStr.isdigit (lit "abc") = false /\
  get_user_choice idle single_option [lit "abc"] tt =
  (emit (Prompt (lit "Choice: ")) ;;
   print (lit "Invalid input. Please enter a number.") ;;
   get_user_choice idle single_option []) tt.
Proof.
  split; [ reflexivity | ].
  apply (@single_option_input_is_validated unit idle
           (MenuOption 1 (lit "Exit") (Function (lit "exit")))
           (lit "abc") [] tt).
  reflexivity.
Defined.

(** C7, as stated, fails: " 1 " does not select what "1" selects. *)
Lemma padded_one_is_not_one :
  ~ (forall (options : list menu_option) (before after : pystr) (i : Z),
        Forall (fun c => Unicode.isspace c = true) before ->
        Forall (fun c => Unicode.isspace c = true) after ->
        1 <= i <= len options ->
        get_user_choice_body idle options (before ++ str i ++ after) tt =
        get_user_choice_body idle options (str i) tt).
Proof.
  intro H. specialize (H two_callables (lit " ") (lit " ") 1).
  assert (Hs : Forall (fun c => Unicode.isspace c = true) (lit " "))
    by (repeat constructor).
  assert (Hi : 1 <= 1 <= len two_callables) by (unfold len; simpl; lia).
  specialize (H Hs Hs Hi). vm_compute in H. discriminate.
Qed.

Lemma padded_literal_is_rejected_witness :
  Forall (fun c => Unicode.isspace c = true) (lit " ") /\
  lit " " ++ lit " " <> [] /\
  get_user_choice idle two_callables [lit " " ++ str 1 ++ lit " "] tt =
  (emit (Prompt (lit "Choice: ")) ;;
   print (lit "Invalid input. Please enter a number.") ;;
   get_user_choice idle two_callables []) tt.
Proof.
  assert (Hs : Forall (fun c => Unicode.isspace c = true) (lit " "))
    by (repeat constructor).
  assert (Hne : lit " " ++ lit " " <> []) by discriminate.
  split; [ exact Hs | ]. split; [ exact Hne | ].
  exact (padded_literal_is_rejected idle two_callables 1 [] tt Hs Hs Hne).
Defined.

(** C8, as stated, fails: when the input ends, the loop is left by the
    [EOFError] of [input], and no action is involved. *)
Lemma end_of_input_leaves_the_loop :
  ~ (forall (options : list menu_option) (inputs : list pystr),
        snd (fst (get_user_choice idle options inputs tt)) <> Returns tt /\
        ends_with_invoke (fst (fst (get_user_choice idle options inputs tt)))).
Proof.
  intro H.
  destruct (H (menu_of PyNone "Budgeted") [lit "1"]) as [_ (t0 & f & Ht)].
  vm_compute in Ht.
  destruct t0 as [ | e0 [ | e1 [ | e2 [ | e3 t0 ] ] ] ]; cbn in Ht;
    discriminate.
Qed.

Lemma get_user_choice_has_no_normal_exit_witness :
  snd (fst (get_user_choice counting two_callables [lit "1"] 0%nat))
  <> Returns tt /\
  get_user_choice counting two_callables [lit "1"] 0%nat =
  ([ Prompt (lit "Choice: "); Invoke (Function (lit "deposit"));
     Prompt (lit "Choice: ") ], Raises EOFError, 1%nat).
Proof.
  destruct (get_user_choice_has_no_normal_exit counting two_callables
              [lit "1"] 0%nat) as (Hnever & Hagain & _ & _).
  split; [ exact Hnever | ].
  exact (Hagain (lit "1") [] [Invoke (Function (lit "deposit"))] 1%nat
                eq_refl eq_refl).
Defined.

End MenuHandlerFacts.

(* ================================================================== *)
(** * The budget object *)
(* ================================================================== *)

Module BudgetHandlerFacts.

Import PyStr Py BudgetHandler Vocabulary ProgFacts.
#[local] Open Scope prog_scope.
#[local] Open Scope Z_scope.

Lemma contains_no_name (debt_name : pystr) (l : list pyvalue) :
  Forall is_debt_entry l -> contains (PyStr debt_name) l = false.
Proof.
  induction 1 as [ | v l (n & t & ->) _ IH ]; [ reflexivity | ].
  unfold contains in *. cbn [existsb]. rewrite IH. reflexivity.
Qed.

Section Budget.

Variable K : constants.
Variable pyfloat : Type.
Variable float_is_zero : pyfloat -> bool.
Variable float_of_int : Z -> option pyfloat.
Variable int_truediv : Z -> Z -> option pyfloat.
Variable float_div : pyfloat -> pyfloat -> pyfloat.
Variable float_mul : pyfloat -> pyfloat -> pyfloat.

#[local] Abbreviation Budget := (Budget pyfloat).
#[local] Abbreviation quotient :=
  (truediv float_is_zero float_of_int int_truediv float_div).
#[local] Abbreviation product := (mul float_of_int float_mul).
#[local] Abbreviation ratio A B :=
  (@debt_to_asset pyfloat float_is_zero float_of_int int_truediv float_div
                  float_mul A B).

(** C9.  [Budget.debt_to_asset] ignores both of its parameters: for
    every budget and all argument values, of any type, it computes
    [(self.total_debt / self.assets) * 100] from the attributes; on a
    freshly built budget, whose [assets] is [0], every call raises
    [ZeroDivisionError] whatever the arguments. *)
Theorem debt_to_asset_ignores_its_arguments
        (A B A' B' : Type) (x : A) (y : B) (x' : A') (y' : B')
        (self : Budget) :
  ratio A B x y self = ratio A' B' x' y' self /\
  ratio A B x y self =
  (q <- quotient (total_debt self) (assets self) ;;
   product q (Int pyfloat 100)) self /\
  ratio A B x y (Budget_init K pyfloat) =
  ([], Raises ZeroDivisionError, Budget_init K pyfloat).
Proof.
  split; [ reflexivity | ]. split; [ | reflexivity ].
  unfold debt_to_asset, get, bind.
  destruct (quotient (total_debt self) (assets self) self)
    as [[t [q | e | ]] s1]; try reflexivity.
  destruct (product q (Int pyfloat 100) s1) as [[t2 o] s2]. reflexivity.
Qed.

(** Its sibling does read its arguments: the divisor alone decides
    whether the call raises. *)
Lemma debt_to_income_reads_its_arguments (self : Budget) :
  debt_to_income float_is_zero float_of_int int_truediv float_div float_mul
                 (Int pyfloat 1) (Int pyfloat 0) self
  = ([], Raises ZeroDivisionError, self).
Proof. reflexivity. Qed.

Lemma fresh_budget_has_no_debt :
  Forall is_debt_entry (current_debt (Budget_init K pyfloat)).
Proof. constructor. Qed.

(** The ADD branch keeps every entry a dictionary. *)
Lemma add_debt_keeps_entries (self : Budget) (debt_name debt_total : pyvalue) :
  py_eq (ADD K) (ADD K) = true ->
  Forall is_debt_entry (current_debt self) ->
  Forall is_debt_entry
         (current_debt
            (snd (add_remove_debt K debt_name debt_total (ADD K) self))).
Proof.
  intros Hadd Hall. unfold add_remove_debt, bind, get, put.
  rewrite Hadd. cbn.
  apply Forall_app. split; [ exact Hall | ].
  constructor; [ | constructor ]. now exists debt_name, debt_total.
Qed.

(** C10.  With the REMOVE choice nothing is ever removed: for every
    budget whose [current_debt] holds the dictionaries the ADD branch
    stores, a call that passes a debt name, a string, finds no member
    equal to it, prints 'Debt not found.' and leaves the budget as it
    was. *)
Theorem remove_debt_by_name_removes_nothing
        (self : Budget) (debt_name : pystr) (debt_total : pyvalue) :
  py_eq (REMOVE K) (ADD K) = false ->
  py_eq (REMOVE K) (REMOVE K) = true ->
  Forall is_debt_entry (current_debt self) ->
  contains (PyStr debt_name) (current_debt self) = false /\
  add_remove_debt K (PyStr debt_name) debt_total (REMOVE K) self =
  ([Print (lit "Debt not found.")], Returns tt, self).
Proof.
  intros Hne Hrefl Hall.
  pose proof (contains_no_name debt_name Hall) as Hc.
  split; [ exact Hc | ].
  unfold add_remove_debt, bind, get. rewrite Hne, Hrefl, Hc. reflexivity.
Qed.

End Budget.

(** A budget with one debt, entered through the ADD branch. *)
Lemma one_debt_budget_entries :
  Forall is_debt_entry
         (current_debt
            (snd (add_remove_debt sample_constants (PyStr (lit "credit card"))
                    (PyInt 3000) (ADD sample_constants)
                    (Budget_init sample_constants unit)))).
Proof.
  apply add_debt_keeps_entries; [ reflexivity | constructor ].
Qed.

Lemma remove_debt_by_name_removes_nothing_witness :
  let self :=
    snd (add_remove_debt sample_constants (PyStr (lit "credit card"))
           (PyInt 3000) (ADD sample_constants)
           (Budget_init sample_constants unit)) in
  py_eq (REMOVE sample_constants) (ADD sample_constants) = false /\
  current_debt self = [debt_entry (PyStr (lit "credit card")) (PyInt 3000)] /\
  add_remove_debt sample_constants (PyStr (lit "credit card")) PyNone
                  (REMOVE sample_constants) self =
  ([Print (lit "Debt not found.")], Returns tt, self).
Proof.
  intro self.
  split; [ reflexivity | ]. split; [ reflexivity | ].
  apply (@remove_debt_by_name_removes_nothing sample_constants unit self
           (lit "credit card") PyNone eq_refl eq_refl).
  repeat constructor.
  now exists (PyStr (lit "credit card")), (PyInt 3000).
Defined.

End BudgetHandlerFacts.

(* ================================================================== *)
(** * More on digit strings *)
(* ================================================================== *)

Module PyStrMore.

Import Unicode PyStr PyStrFacts.

Lemma low_digit_is_ascii_digit (c : codepoint) :
  (c < 127)%N -> Unicode.isdigit c = true -> is_ascii_digit c = true.
Proof.
  intros Hlt Hd.
  assert (Hall : forallb (fun x => implb (Unicode.isdigit x) (is_ascii_digit x))
                         (List.map N.of_nat (seq 0 127)) = true)
    by (vm_compute; reflexivity).
  rewrite forallb_forall in Hall.
  specialize (Hall c). rewrite Hd in Hall. apply Hall.
  apply in_map_iff. exists (N.to_nat c). split; [ lia | ].
  apply in_seq. lia.
Qed.

Lemma decimal_value_below_ten (c : codepoint) (d : N) :
  decimal_value c = Some d -> (d <= 9)%N.
Proof.
  unfold decimal_value.
  destruct (find (fun z => in_range c (z, (z + 9)%N)) decimal_zeros)
    as [ z | ] eqn:E; [ | discriminate ].
  intros [= <-]. apply find_some in E as [_ E].
  unfold in_range in E. cbn [fst snd] in E.
  rewrite andb_true_iff, !N.leb_le in E. lia.
Qed.

(** What [int] makes of a digit character, when it accepts it, is an
    ASCII digit. *)
Lemma to_ascii_of_digit (c a : codepoint) :
  Unicode.isdigit c = true -> to_ascii c = Some a -> is_ascii_digit a = true.
Proof.
  intro Hd. unfold to_ascii.
  destruct (N.ltb_spec c 127) as [ Hlt | Hge ].
  - intros [= <-]. now apply low_digit_is_ascii_digit.
  - destruct (Unicode.isspace c) eqn:Hsp.
    + apply isspace_not_isdigit in Hsp. congruence.
    + destruct (decimal_value c) as [ d | ] eqn:Hv; [ | discriminate ].
      apply decimal_value_below_ten in Hv.
      remember (0x30 + d)%N as a' eqn:Ea. intros [= <-].
      unfold is_ascii_digit, in_range. cbn [fst snd].
      rewrite andb_true_iff, !N.leb_le. lia.
Qed.

Lemma transform_of_digits (s a : pystr) :
  forallb Unicode.isdigit s = true ->
  transform_decimal_and_space s = Some a ->
  forallb is_ascii_digit a = true /\ List.length a = List.length s.
Proof.
  revert a. induction s as [ | c r IH ]; intros a Hall.
  - intros [= <-]. now split.
  - simpl in Hall. apply andb_true_iff in Hall as [Hc Hr].
    cbn [transform_decimal_and_space].
    destruct (to_ascii c) as [ c' | ] eqn:Ec; [ | discriminate ].
    destruct (transform_decimal_and_space r) as [ r' | ] eqn:Er;
      [ | discriminate ].
    intros [= <-]. destruct (IH r' Hr eq_refl) as [IH1 IH2].
    simpl. rewrite (@to_ascii_of_digit c c' Hc Ec), IH1, IH2. now split.
Qed.

Lemma scan_ascii_digits (a : pystr) (acc : Z) :
  forallb is_ascii_digit a = true -> (0 <= acc)%Z ->
  exists v, scan_digits false acc a = Some (v, []) /\ (0 <= v)%Z.
Proof.
  revert acc. induction a as [ | c r IH ]; intros acc Hall Hacc.
  - exists acc. now split.
  - simpl in Hall. apply andb_true_iff in Hall as [Hc Hr].
    cbn [scan_digits]. rewrite Hc. apply IH; [ exact Hr | lia ].
Qed.

Lemma long_from_string_ascii_digits (a : pystr) :
  a <> [] -> forallb is_ascii_digit a = true ->
  exists v, long_from_string a = Some v /\ (0 <= v)%Z.
Proof.
  intros Hne Hall.
  destruct (@scan_ascii_digits a 0%Z Hall (Z.le_refl 0)) as (v & Hscan & Hv).
  destruct a as [ | c r ]; [ contradiction | ].
  pose proof Hall as Hall'. simpl in Hall'.
  apply andb_true_iff in Hall' as [Hc _].
  exists v. split; [ | exact Hv ].
  unfold long_from_string. cbn [skip_space].
  rewrite (@ascii_digit_not_space c Hc).
  pose proof Hc as Hc'.
  unfold is_ascii_digit, in_range in Hc'. cbn [fst snd] in Hc'.
  rewrite andb_true_iff, !N.leb_le in Hc'.
  destruct (N.eqb_spec c 0x2b); [ lia | ].
  destruct (N.eqb_spec c 0x2d); [ lia | ].
  unfold read_digits. rewrite Hc, Hscan. reflexivity.
Qed.

(** A digit string that [int] accepts denotes a natural number. *)
Lemma int_of_digit_string_nonneg (s : pystr) (i : Z) :
  isdigit s = true -> int s = Some i -> (0 <= i)%Z.
Proof.
  unfold isdigit, int. intros Hd.
  destruct s as [ | c r ]; [ discriminate | ].
  destruct (transform_decimal_and_space (c :: r)) as [ a | ] eqn:Et;
    [ | discriminate ].
  destruct (@transform_of_digits (c :: r) a Hd Et) as [Ha Hlen].
  assert (Hne : a <> []) by (destruct a; [ discriminate | congruence ]).
  destruct (@long_from_string_ascii_digits a Hne Ha) as (v & Hv & Hpos).
  rewrite Hv. now intros [= <-].
Qed.

End PyStrMore.

(* ================================================================== *)
(** * More on the menu engine *)
(* ================================================================== *)

Module MenuHandlerMore.

Import Unicode PyStr Py MenuHandler Vocabulary PyStrFacts PyStrMore ProgFacts.
Import MenuHandlerFacts.
#[local] Open Scope prog_scope.
#[local] Open Scope Z_scope.

Lemma invocations_app (t1 t2 : list event) :
  invocations (t1 ++ t2) = invocations t1 ++ invocations t2.
Proof.
  induction t1 as [ | [p | p | f] t1 IH ]; cbn; [ | | | rewrite IH ];
    auto.
Qed.

Lemma prompts_app (t1 t2 : list event) :
  prompts (t1 ++ t2) = (prompts t1 + prompts t2)%nat.
Proof.
  induction t1 as [ | [p | p | f] t1 IH ]; cbn; [ | rewrite IH | | ];
    auto.
Qed.

Section Engine.

Variable W : Type.
Variable behave : pyobject -> W -> outcome unit * W.

#[local] Abbreviation body := (get_user_choice_body behave).
#[local] Abbreviation loop := (get_user_choice behave).
#[local] Abbreviation prompt := (emit (S := W) (Prompt (lit "Choice: "))).

(** ** Rendering *)

Lemma menu_choices_loop_prints (options : list menu_option) (w : W) :
  menu_choices_loop options w =
  (List.map (fun o => Print (choice_line o)) options, Returns tt, w).
Proof.
  induction options as [ | o r IH ]; [ reflexivity | ].
  cbn [menu_choices_loop List.map]. unfold bind, print, emit.
  rewrite IH. reflexivity.
Qed.

Lemma menu_choices_closed_form (options : list menu_option) (w : W) :
  menu_choices options w =
  (List.map (fun o => Print (choice_line o)) options
   ++ [Print (lit "    ******************************")],
   Returns tt, w).
Proof.
  unfold menu_choices, bind. rewrite menu_choices_loop_prints. reflexivity.
Qed.


(** ** Entering a menu *)

Lemma menu_maker_known (menu_key : pystr) (active_user : pyvalue)
      (inputs : list pystr) (w : W) (options : list menu_option) :
  lookup menu_key (menu_holder active_user) = Some options ->
  menu_maker behave menu_key active_user inputs w =
  (let '(t, o, w') := loop options inputs w in
   (fst (fst (menu_header menu_key w))
    ++ fst (fst (menu_choices options w)) ++ t, o, w')).
Proof.
  intro H. unfold menu_maker. rewrite H.
  unfold bind at 1. unfold menu_header at 1, print at 1, emit at 1.
  unfold bind at 1. rewrite !menu_choices_closed_form.
  destruct (loop options inputs w) as [[t o] w']. reflexivity.
Qed.

Lemma menu_maker_known_never_returns (menu_key : pystr)
      (active_user : pyvalue) (inputs : list pystr) (w : W)
      (options : list menu_option) :
  lookup menu_key (menu_holder active_user) = Some options ->
  snd (fst (menu_maker behave menu_key active_user inputs w)) <> Returns tt.
Proof.
  intro H. rewrite (@menu_maker_known menu_key active_user inputs w options H).
  pose proof (@loop_never_returns W behave options inputs w) as Hnever.
  destruct (loop options inputs w) as [[t o] w']. exact Hnever.
Qed.


(** X3.  [main_menu] is [menu_maker] on the key 'Main Menu' with no
    active user: the key is in the registry, the silent branch that
    would follow a missing key is never taken, and [main_menu] never
    returns normally. *)
Theorem main_menu_enters_the_root_menu (inputs : list pystr) (w : W) :
  main_menu behave inputs w =
  menu_maker behave (lit "Main Menu") PyNone inputs w /\
  main_menu behave inputs w =
  (menu_header (lit "Main Menu") ;;
   menu_choices (menu_of PyNone "Main Menu") ;;
   loop (menu_of PyNone "Main Menu") inputs) w /\
  snd (fst (main_menu behave inputs w)) <> Returns tt.
Proof.
  assert (H : main_menu behave inputs w =
              menu_maker behave (lit "Main Menu") PyNone inputs w)
    by reflexivity.
  split; [ exact H | ]. split; [ reflexivity | ].
  rewrite H.
  apply (@menu_maker_known_never_returns (lit "Main Menu") PyNone inputs w
           (menu_of PyNone "Main Menu")).
  reflexivity.
Qed.

(** ** What the loop does and never does *)

Lemma turn_facts (options : list menu_option) (s : pystr) (w : W)
      (r : list event * outcome unit * W) :
  turn behave options s w r ->
  prompts (fst (fst r)) = O /\
  (List.length (invocations (fst (fst r))) <= 1)%nat /\
  (forall f, In f (invocations (fst (fst r))) ->
             exists o, In o options /\ action o = f /\ callable f = true) /\
  (invocations (fst (fst r)) = [] -> snd r = w).
Proof.
  intros [ Hd | | o Hin Hc | o Hin Hc | Hd Hi | Hlen ]; cbn;
    try (repeat split; auto; intros f []).
  unfold invoke. destruct (behave (action o) w) as [x w1]. cbn.
  repeat split; auto.
  - intros f [<- | []]. now exists o.
  - discriminate.
Qed.

(** The loop on a non-empty input: the turn, and then either the loop
    again or the way out. *)
Lemma loop_cons_cases (options : list menu_option) (s : pystr)
      (rest : list pystr) (w : W) :
  exists t o w',
    body options s w = (t, o, w') /\
    ((o = Returns tt /\
      loop options (s :: rest) w =
      (let '(t', o', w'') := loop options rest w' in
       (Prompt (lit "Choice: ") :: t ++ t', o', w''))) \/
     (o <> Returns tt /\
      loop options (s :: rest) w = (Prompt (lit "Choice: ") :: t, o, w'))).
Proof.
  destruct (body options s w) as [[t o] w'] eqn:Hb.
  exists t, o, w'. split; [ reflexivity | ].
  destruct o as [ [] | e | ].
  - left. split; [ reflexivity | ]. now apply loop_after_turn.
  - right. split; [ discriminate | ].
    now apply loop_leaves_turn.
  - right. split; [ discriminate | ].
    now apply loop_leaves_turn.
Qed.

(** X4.  Whatever is typed, the loop invokes only actions that are
    bound to an option of the list it was given, and only callable
    ones. *)
Theorem loop_invokes_only_listed_callables
        (options : list menu_option) (inputs : list pystr) (w : W)
        (f : pyobject) :
  In f (invocations (fst (fst (loop options inputs w)))) ->
  exists o, In o options /\ action o = f /\ callable f = true.
Proof.
  revert w. induction inputs as [ | s rest IH ]; intro w.
  - cbn. intros [].
  - destruct (loop_cons_cases options s rest w)
      as (t & o & w' & Hb & [[-> Hl] | [Ho Hl]]);
      pose proof (body_turn behave options s w) as Hturn;
      rewrite Hb in Hturn;
      destruct (turn_facts Hturn) as (_ & _ & Hfrom & _); cbn in Hfrom;
      rewrite Hl.
    + specialize (IH w').
      destruct (loop options rest w') as [[t' o'] w'']. cbn in *.
      rewrite invocations_app. intro Hin.
      apply in_app_or in Hin as [Hin | Hin]; auto.
    + cbn. exact (Hfrom f).
Qed.

(** X5.  The world changes only through invoked actions: a run of the
    loop in which no action was invoked ends in the world it started
    in. *)
Theorem world_changes_only_through_actions
        (options : list menu_option) (inputs : list pystr) (w : W) :
  invocations (fst (fst (loop options inputs w))) = [] ->
  snd (loop options inputs w) = w.
Proof.
  revert w. induction inputs as [ | s rest IH ]; intro w.
  - reflexivity.
  - destruct (loop_cons_cases options s rest w)
      as (t & o & w' & Hb & [[-> Hl] | [Ho Hl]]);
      pose proof (body_turn behave options s w) as Hturn;
      rewrite Hb in Hturn;
      destruct (turn_facts Hturn) as (_ & _ & _ & Hsame); cbn in Hsame;
      rewrite Hl.
    + specialize (IH w').
      destruct (loop options rest w') as [[t' o'] w'']. cbn in *.
      rewrite invocations_app. intro Hnil.
      apply app_eq_nil in Hnil as [H1 H2].
      rewrite <- (Hsame H1). auto.
    + cbn. exact Hsame.
Qed.

(** X6.  The loop shows its prompt once per line it reads and once
    more when the lines have run out; it invokes at most one action per
    line read; when as many prompts were shown as lines plus one, the
    loop was left by the [EOFError] of [input]. *)
Theorem loop_prompts_once_per_line
        (options : list menu_option) (inputs : list pystr) (w : W) :
  (1 <= prompts (fst (fst (loop options inputs w))))%nat /\
  (prompts (fst (fst (loop options inputs w))) <= S (List.length inputs))%nat /\
  (List.length (invocations (fst (fst (loop options inputs w))))
   <= prompts (fst (fst (loop options inputs w))))%nat /\
  (List.length (invocations (fst (fst (loop options inputs w))))
   <= List.length inputs)%nat /\
  (prompts (fst (fst (loop options inputs w))) = S (List.length inputs) ->
   snd (fst (loop options inputs w)) = Raises EOFError).
Proof.
  revert w. induction inputs as [ | s rest IH ]; intro w.
  - cbn. repeat split; auto.
  - destruct (loop_cons_cases options s rest w)
      as (t & o & w' & Hb & [[-> Hl] | [Ho Hl]]);
      pose proof (body_turn behave options s w) as Hturn;
      rewrite Hb in Hturn;
      destruct (turn_facts Hturn) as (Hp & Hone & _ & _); cbn in Hp, Hone;
      rewrite Hl.
    + specialize (IH w').
      destruct (loop options rest w') as [[t' o'] w'']. cbn in *.
      rewrite prompts_app, invocations_app, length_app, Hp.
      destruct IH as (I1 & I2 & I3 & I4 & I5).
      repeat split; try lia.
      intro H. apply I5. lia.
    + cbn. rewrite Hp. repeat split; lia.
Qed.

(** ** Inputs *)

(** X7.  A selection depends only on the number the digits denote: a
    digit string of at most [max_str_digits] digits that [int] reads as
    [i] (leading zeros, digits of another script) is treated exactly as
    [str(i)]. *)
Theorem selection_depends_on_the_number_only
        (options : list menu_option) (s : pystr) (i : Z)
        (rest : list pystr) (w : W) :
  PyStr.isdigit s = true -> PyStr.int s = Some i ->
  len s <= max_str_digits ->
  0 <= i /\
  body options s w = body options (str i) w /\
  loop options (s :: rest) w = loop options (str i :: rest) w.
Proof.
  intros Hd Hi _.
  pose proof (int_of_digit_string_nonneg _ Hd Hi) as Hpos.
  assert (Hb : body options s w = body options (str i) w).
  { unfold get_user_choice_body, int_of.
    now rewrite Hd, Hi, (isdigit_str_nonneg Hpos), int_str. }
  split; [ exact Hpos | ]. split; [ exact Hb | ].
  cbn [get_user_choice]. unfold bind at 1 3. unfold emit.
  now rewrite (@bind_congr _ _ _ (body options s) (body options (str i))
                 _ w Hb).
Qed.

(** X8.  Any run of lines that are not digit strings is answered line
    by line with a prompt and "Invalid input. Please enter a number.";
    the world is untouched and the loop goes on with what follows. *)
Theorem invalid_lines_are_answered_one_by_one
        (options : list menu_option) (bad rest : list pystr) (w : W) :
  Forall (fun s => PyStr.isdigit s = false) bad ->
  loop options (bad ++ rest) w =
  (let '(t, o, w') := loop options rest w in
   (flat_map (fun _ => [ Prompt (lit "Choice: ");
                         Print (lit "Invalid input. Please enter a number.") ])
             bad ++ t, o, w')).
Proof.
  induction 1 as [ | s bad Hs _ IH ].
  - cbn. now destruct (loop options rest w) as [[t o] w'].
  - cbn [flat_map]. change ((s :: bad) ++ rest) with (s :: bad ++ rest).
    rewrite (@loop_after_turn W behave options s (bad ++ rest) w w
               [Print (lit "Invalid input. Please enter a number.")])
      by now apply body_not_a_number.
    rewrite IH. now destruct (loop options rest w) as [[t o] w'].
Qed.

(** X9.  An action that does not return is not caught: when the action
    selected by [str(i)] raises or never returns, the loop ends there
    with that outcome, right after the invocation, and the lines that
    follow are never read. *)
Theorem failing_action_ends_the_loop
        (options : list menu_option) (i : Z) (o : menu_option)
        (rest : list pystr) (w w' : W) (r : outcome unit) :
  len options <> 1 ->
  1 <= i <= len options ->
  nth_error options (Z.to_nat (i - 1)) = Some o ->
  callable (action o) = true ->
  behave (action o) w = (r, w') ->
  r <> Returns tt ->
  loop options (str i :: rest) w =
  ([Prompt (lit "Choice: "); Invoke (action o)], r, w').
Proof.
  intros Hlen Hi Hn Hc Hb Hr.
  apply (@loop_leaves_turn W behave options (str i) rest w w'
           [Invoke (action o)] r); [ | exact Hr ].
  rewrite (@body_in_range W behave options (str i) i o w); auto.
  - rewrite Hc. unfold invoke. now rewrite Hb.
  - apply isdigit_str_nonneg. lia.
  - apply int_str.
Qed.

(** X10.  On an empty list of options every number is out of range:
    a digit string of at most [max_str_digits] digits that [int]
    accepts is answered by "Invalid choice. Please select a valid
    number." and the loop prompts again. *)
Theorem empty_menu_rejects_every_number
        (s : pystr) (i : Z) (rest : list pystr) (w : W) :
  PyStr.isdigit s = true -> PyStr.int s = Some i ->
  len s <= max_str_digits ->
  loop [] (s :: rest) w =
  (prompt ;;
   print (lit "Invalid choice. Please select a valid number.") ;;
   loop [] rest) w.
Proof.
  intros Hd Hi _. apply loop_step.
  apply body_out_of_range with (i := i); auto.
  - discriminate.
  - unfold len. cbn. lia.
Qed.

(** ** The registry as the loop sees it *)

Lemma registry_shape (active_user : pyvalue) :
  Forall (fun e : pystr * list menu_option =>
            2 <= len (snd e) /\
            (fst e <> lit "Budgeted" ->
             Forall (fun o => callable (action o) = true) (snd e)))
         (menu_holder active_user).
Proof.
  unfold menu_holder.
  repeat (constructor;
          [ split;
            [ unfold len; cbn; lia
            | intro Hne;
              first [ now repeat constructor | exfalso; now apply Hne ] ]
          | ]).
  constructor.
Qed.

Lemma registry_menu_shape (active_user : pyvalue) (name : pystr)
      (options : list menu_option) :
  lookup name (menu_holder active_user) = Some options ->
  2 <= len options /\
  numbered_from_one options /\
  (name <> lit "Budgeted" ->
   Forall (fun o => callable (action o) = true) options).
Proof.
  intro H. apply lookup_In in H.
  pose proof (registry_shape active_user) as Hs.
  pose proof (registry_numbered active_user) as Hn.
  rewrite Forall_forall in Hs, Hn.
  specialize (Hs _ H). specialize (Hn _ H). cbn [fst snd] in *.
  tauto.
Qed.

(** X11.  In every menu of the registry other than "Budgeted", every
    number shown dispatches: for [1 <= i <= len], the input [str(i)]
    invokes, once, the action of the option numbered [i], and nothing
    else.  When that action returns, the loop prompts again on the same
    menu; when it raises or never returns, the loop ends there with the
    outcome of the action. *)
Theorem registry_numbers_dispatch
        (active_user : pyvalue) (name : pystr) (options : list menu_option)
        (i : Z) (rest : list pystr) (w : W) :
  lookup name (menu_holder active_user) = Some options ->
  name <> lit "Budgeted" ->
  1 <= i <= len options ->
  exists o,
    nth_error options (Z.to_nat (i - 1)) = Some o /\
    number o = i /\
    fst (fst (body options (str i) w)) = [Invoke (action o)] /\
    loop options (str i :: rest) w =
    (prompt ;; invoke behave (action o) ;; loop options rest) w /\
    (forall w',
        behave (action o) w = (Returns tt, w') ->
        loop options (str i :: rest) w =
        (let '(t, r, w'') := loop options rest w' in
         (Prompt (lit "Choice: ") :: Invoke (action o) :: t, r, w''))) /\
    (forall r w',
        behave (action o) w = (r, w') -> r <> Returns tt ->
        loop options (str i :: rest) w =
        ([Prompt (lit "Choice: "); Invoke (action o)], r, w')).
Proof.
  intros Hl Hne Hi.
  destruct (registry_menu_shape _ _ Hl) as (Hlen & Hnum & Hcall).
  specialize (Hcall Hne). rewrite Forall_forall in Hcall.
  destruct (nth_error options (Z.to_nat (i - 1))) as [ o | ] eqn:Hn;
    [ | apply nth_error_None in Hn; unfold len in Hi; lia ].
  assert (Hbody : body options (str i) w = invoke behave (action o) w).
  { rewrite (@body_in_range W behave options (str i) i o w); auto.
    + now rewrite (Hcall o (nth_error_In _ _ Hn)).
    + apply isdigit_str_nonneg. lia.
    + apply int_str.
    + lia. }
  exists o. split; [ reflexivity | ]. split; [ | split; [ | split; [ | split ] ] ].
  - rewrite (numbered_from_one_nth _ Hnum Hn). lia.
  - rewrite Hbody. unfold invoke. now destruct (behave (action o) w).
  - now apply loop_step.
  - intros w' Hb.
    rewrite (@loop_after_turn W behave options (str i) rest w w'
               [Invoke (action o)]).
    + now destruct (loop options rest w') as [[t r] w''].
    + rewrite Hbody. unfold invoke. now rewrite Hb.
  - intros r w' Hb Hr.
    apply (@loop_leaves_turn W behave options (str i) rest w w'
             [Invoke (action o)] r); [ | exact Hr ].
    rewrite Hbody. unfold invoke. now rewrite Hb.
Qed.

(** X12.  No menu of the registry has a single option, so on a menu of
    the registry the engine never calls the list itself: no turn ends
    with a [TypeError] raised before any action was invoked. *)
Theorem registry_never_calls_the_list
        (active_user : pyvalue) (name : pystr) (options : list menu_option)
        (s : pystr) (w : W) :
  lookup name (menu_holder active_user) = Some options ->
  len options <> 1 /\
  body options s w <> ([], Raises TypeError, w).
Proof.
  intro Hl.
  destruct (registry_menu_shape _ _ Hl) as (Hlen & _ & _).
  split; [ lia | ].
  intro Heq. pose proof (body_turn behave options s w) as Hturn.
  rewrite Heq in Hturn.
  inversion Hturn as [ | | | o Hin Hc Hinv | | H1 ].
  - unfold invoke in Hinv.
    destruct (behave (action o) w) as [x w1]. discriminate.
  - lia.
Qed.

(** X13.  Every option of the registry that jumps to a menu (a [lambda]
    calling [menu_maker]) names a menu of the registry and carries the
    active user it was built with; entering the target therefore never
    prints "not found" and never returns normally. *)
Theorem registry_jumps_stay_in_the_registry
        (active_user : pyvalue) (name : pystr) (options : list menu_option)
        (o : menu_option) (args : list pyvalue) :
  lookup name (menu_holder active_user) = Some options ->
  In o options ->
  action o = Lambda (lit "menu_maker") args ->
  exists key target,
    args = [PyStr key; active_user] /\
    lookup key (menu_holder active_user) = Some target /\
    (forall inputs w,
        snd (fst (menu_maker behave key active_user inputs w))
        <> Returns tt).
Proof.
  intros Hl Hin Hact. apply lookup_In in Hl.
  unfold menu_holder in Hl. cbn [In] in Hl.
  repeat (destruct Hl as [Hl | Hl];
          [ injection Hl as _ <-; cbn [In] in Hin;
            repeat (destruct Hin as [<- | Hin];
                    [ cbn [action] in Hact; try discriminate Hact;
                      first
                        [ exfalso; injection Hact as Hcallee _;
                          vm_compute in Hcallee; discriminate Hcallee
                        | injection Hact as <-;
                          eexists; eexists;
                          split; [ reflexivity | ];
                          split; [ reflexivity | ];
                          intros inputs w;
                          eapply menu_maker_known_never_returns;
                          reflexivity ]
                    | ]);
            contradiction
          | ]).
  contradiction.
Qed.

End Engine.

(** ** Concrete runs *)



Lemma loop_invokes_only_listed_callables_witness :
  In (Function (lit "deposit"))
     (invocations
        (fst (fst (get_user_choice counting two_callables [lit "1"] 0%nat)))) /\
  exists o,
    In o two_callables /\ action o = Function (lit "deposit") /\
    callable (Function (lit "deposit")) = true.
Proof.
  assert (H : In (Function (lit "deposit"))
                 (invocations
                    (fst (fst (get_user_choice counting two_callables
                                 [lit "1"] 0%nat)))))
    by (left; reflexivity).
  split; [ exact H | ].
  exact (@loop_invokes_only_listed_callables nat counting two_callables
           [lit "1"] 0%nat (Function (lit "deposit")) H).
Defined.

Lemma world_changes_only_through_actions_witness :
  invocations
    (fst (fst (get_user_choice counting (menu_of PyNone "Budgeted")
                 [lit "1"; lit "x"; lit "9"] 0%nat))) = [] /\
  snd (get_user_choice counting (menu_of PyNone "Budgeted")
         [lit "1"; lit "x"; lit "9"] 0%nat) = 0%nat.
Proof.
  split; [ reflexivity | ].
  apply (@world_changes_only_through_actions nat counting
           (menu_of PyNone "Budgeted") [lit "1"; lit "x"; lit "9"] 0%nat).
  reflexivity.
Defined.

Lemma loop_prompts_once_per_line_witness :
  prompts (fst (fst (get_user_choice counting two_callables
                       [lit "1"; lit "x"] 0%nat))) = 3%nat /\
  snd (fst (get_user_choice counting two_callables [lit "1"; lit "x"] 0%nat))
  = Raises EOFError.
Proof.
  split; [ reflexivity | ].
  apply (@loop_prompts_once_per_line nat counting two_callables
           [lit "1"; lit "x"] 0%nat).
  reflexivity.
Defined.

Lemma selection_depends_on_the_number_only_witness :
  PyStr.isdigit (lit "002") = true /\
  PyStr.int (lit "002") = Some 2 /\
  len (lit "002") <= max_str_digits /\
  get_user_choice counting two_callables [lit "002"] 0%nat =
  get_user_choice counting two_callables [str 2] 0%nat /\
  PyStr.isdigit [0x662%N] = true /\
  get_user_choice counting two_callables [[0x662%N]] 0%nat =
  get_user_choice counting two_callables [str 2] 0%nat.
Proof.
  assert (H1 : len (lit "002") <= max_str_digits)
    by (apply short_within_max_str_digits; cbn; lia).
  assert (H2 : len [0x662%N] <= max_str_digits)
    by (apply short_within_max_str_digits; cbn; lia).
  split; [ reflexivity | ]. split; [ reflexivity | ].
  split; [ exact H1 | ]. split.
  - apply (@selection_depends_on_the_number_only nat counting two_callables
             (lit "002") 2 [] 0%nat eq_refl eq_refl H1).
  - split; [ reflexivity | ].
    apply (@selection_depends_on_the_number_only nat counting two_callables
             [0x662%N] 2 [] 0%nat eq_refl eq_refl H2).
Defined.

Lemma invalid_lines_are_answered_one_by_one_witness :
  Forall (fun s => PyStr.isdigit s = false) [lit "abc"; lit " 1 "; lit "-1"] /\
  get_user_choice counting two_callables
                  ([lit "abc"; lit " 1 "; lit "-1"] ++ [lit "1"]) 0%nat =
  (let '(t, o, w') := get_user_choice counting two_callables [lit "1"] 0%nat in
   (flat_map (fun _ => [ Prompt (lit "Choice: ");
                         Print (lit "Invalid input. Please enter a number.") ])
             [lit "abc"; lit " 1 "; lit "-1"] ++ t, o, w')).
Proof.
  assert (H : Forall (fun s => PyStr.isdigit s = false)
                     [lit "abc"; lit " 1 "; lit "-1"])
    by (repeat constructor).
  split; [ exact H | ].
  exact (@invalid_lines_are_answered_one_by_one nat counting two_callables
           [lit "abc"; lit " 1 "; lit "-1"] [lit "1"] 0%nat H).
Defined.

(** Choosing "Exit" on the main menu, when [exit] ends the process:
    nothing is read after it. *)
Lemma failing_action_ends_the_loop_witness :
  len (menu_of PyNone "Main Menu") <> 1 /\
  1 <= 3 <= len (menu_of PyNone "Main Menu") /\
  exiting (Function (lit "exit")) 0%nat = (Raises SystemExit, 0%nat) /\
  get_user_choice exiting (menu_of PyNone "Main Menu")
                  [str 3; lit "1"; lit "2"] 0%nat =
  ([Prompt (lit "Choice: "); Invoke (Function (lit "exit"))],
   Raises SystemExit, 0%nat).
Proof.
  assert (H1 : len (menu_of PyNone "Main Menu") <> 1)
    by (unfold len; cbn; lia).
  assert (H2 : 1 <= 3 <= len (menu_of PyNone "Main Menu"))
    by (unfold len; cbn; lia).
  split; [ exact H1 | ]. split; [ exact H2 | ]. split; [ reflexivity | ].
  apply (@failing_action_ends_the_loop nat exiting
           (menu_of PyNone "Main Menu") 3
           (MenuOption 3 (lit "Exit") (Function (lit "exit")))
           [lit "1"; lit "2"] 0%nat 0%nat (Raises SystemExit) H1 H2);
    [ reflexivity | reflexivity | reflexivity | discriminate ].
Defined.

Lemma empty_menu_rejects_every_number_witness :
  PyStr.isdigit (lit "1") = true /\
  PyStr.int (lit "1") = Some 1 /\
  len (lit "1") <= max_str_digits /\
  get_user_choice idle [] [lit "1"] tt =
  ([ Prompt (lit "Choice: ");
     Print (lit "Invalid choice. Please select a valid number.");
     Prompt (lit "Choice: ") ], Raises EOFError, tt).
Proof.
  assert (H1 : len (lit "1") <= max_str_digits)
    by (apply short_within_max_str_digits; cbn; lia).
  split; [ reflexivity | ]. split; [ reflexivity | ]. split; [ exact H1 | ].
  exact (@empty_menu_rejects_every_number unit idle (lit "1") 1 [] tt
           eq_refl eq_refl H1).
Defined.

Lemma registry_numbers_dispatch_witness :
  lookup (lit "User Account Menu") (menu_holder (PyObject 7))
  = Some (menu_of (PyObject 7) "User Account Menu") /\
  lit "User Account Menu" <> lit "Budgeted" /\
  1 <= 2 <= len (menu_of (PyObject 7) "User Account Menu") /\
  get_user_choice counting (menu_of (PyObject 7) "User Account Menu")
                  [str 2] 0%nat =
  ([ Prompt (lit "Choice: ");
     Invoke (Lambda (lit "transaction_interaction")
                    [PyStr (lit "deposit"); PyObject 7]);
     Prompt (lit "Choice: ") ],
   Raises EOFError, 1%nat).
Proof.
  assert (H1 : lit "User Account Menu" <> lit "Budgeted") by discriminate.
  assert (H2 : 1 <= 2 <= len (menu_of (PyObject 7) "User Account Menu"))
    by (unfold len; cbn; lia).
  split; [ reflexivity | ]. split; [ exact H1 | ]. split; [ exact H2 | ].
  destruct (@registry_numbers_dispatch nat counting (PyObject 7)
              (lit "User Account Menu")
              (menu_of (PyObject 7) "User Account Menu") 2 [] 0%nat
              eq_refl H1 H2) as (o & Hn & _ & _ & _ & Hreturns & _).
  injection Hn as <-.
  exact (Hreturns 1%nat eq_refl).
Defined.

Lemma registry_never_calls_the_list_witness :
  lookup (lit "Create Account") (menu_holder PyNone)
  = Some (menu_of PyNone "Create Account") /\
  len (menu_of PyNone "Create Account") <> 1 /\
  get_user_choice_body idle (menu_of PyNone "Create Account") (lit "1") tt
  <> ([], Raises TypeError, tt).
Proof.
  split; [ reflexivity | ].
  exact (@registry_never_calls_the_list unit idle PyNone
           (lit "Create Account") (menu_of PyNone "Create Account")
           (lit "1") tt eq_refl).
Defined.

Lemma registry_jumps_stay_in_the_registry_witness :
  lookup (lit "User Account Menu") (menu_holder (PyObject 7))
  = Some (menu_of (PyObject 7) "User Account Menu") /\
  exists key target,
    [PyStr (lit "Budgeted"); PyObject 7] = [PyStr key; PyObject 7] /\
    lookup key (menu_holder (PyObject 7)) = Some target /\
    (forall inputs w,
        snd (fst (menu_maker idle key (PyObject 7) inputs w)) <> Returns tt).
Proof.
  split; [ reflexivity | ].
  apply (@registry_jumps_stay_in_the_registry unit idle (PyObject 7)
           (lit "User Account Menu")
           (menu_of (PyObject 7) "User Account Menu")
           (MenuOption 5 (lit "View Budget")
              (Lambda (lit "menu_maker")
                 [PyStr (lit "Budgeted"); PyObject 7]))
           [PyStr (lit "Budgeted"); PyObject 7]).
  - reflexivity.
  - cbn. tauto.
  - reflexivity.
Defined.

End MenuHandlerMore.

(* ================================================================== *)
(** * More on the budget object *)
(* ================================================================== *)

Module BudgetHandlerMore.

Import PyStr Py BudgetHandler Vocabulary ProgFacts BudgetHandlerFacts.
#[local] Open Scope prog_scope.
#[local] Open Scope Z_scope.

(** [x in l] promises that [l.remove(x)] finds its item: the first one
    equal to [x], after items that are not. *)
Lemma contains_remove_first (x : pyvalue) (l : list pyvalue) :
  contains x l = true ->
  exists l1 y l2,
    l = l1 ++ y :: l2 /\ py_eq y x = true /\
    Forall (fun z => py_eq z x = false) l1 /\
    remove_first x l = Some (l1 ++ l2).
Proof.
  unfold contains. induction l as [ | z l IH ]; cbn; [ discriminate | ].
  destruct (py_eq z x) eqn:E.
  - intros _. exists [], z, l. repeat split; auto.
  - cbn. intro H. destruct (IH H) as (l1 & y & l2 & -> & Hy & Hl1 & Hr).
    exists (z :: l1), y, l2. rewrite Hr. repeat split; auto.
Qed.

Lemma not_contains_remove_first (x : pyvalue) (l : list pyvalue) :
  Forall (fun z => py_eq z x = false) l -> contains x l = false.
Proof.
  unfold contains. induction 1 as [ | z l Hz _ IH ]; cbn; [ reflexivity | ].
  now rewrite Hz, IH.
Qed.

Lemma remove_first_last (x : pyvalue) (l : list pyvalue) :
  Forall (fun z => py_eq z x = false) l -> py_eq x x = true ->
  remove_first x (l ++ [x]) = Some l.
Proof.
  intros Hall Hx.
  induction Hall as [ | z l Hz _ IH ]; cbn [List.app remove_first].
  - now rewrite Hx.
  - now rewrite Hz, IH.
Qed.

Section Budget.

Variable K : constants.
Variable pyfloat : Type.
Variable float_is_zero : pyfloat -> bool.
Variable float_of_int : Z -> option pyfloat.
Variable int_truediv : Z -> Z -> option pyfloat.
Variable float_div : pyfloat -> pyfloat -> pyfloat.
Variable float_mul : pyfloat -> pyfloat -> pyfloat.

#[local] Abbreviation Budget := (Budget pyfloat).
#[local] Abbreviation quotient :=
  (@truediv pyfloat float_is_zero float_of_int int_truediv float_div Budget).
#[local] Abbreviation product := (@mul pyfloat float_of_int float_mul Budget).
#[local] Abbreviation ratio A B :=
  (@debt_to_asset pyfloat float_is_zero float_of_int int_truediv float_div
                  float_mul A B).

Lemma set_current_debt_same (self : Budget) :
  set_current_debt self (current_debt self) = self.
Proof. now destruct self. Qed.

(** ** [add_remove_debt] *)

(** X14.  [add_remove_debt] never raises, whatever it is given: the
    [remove] of the REMOVE branch runs only behind the membership test
    that promises it an item. *)
Theorem add_remove_debt_never_raises
        (debt_name debt_total add_or_remove : pyvalue) (self : Budget) :
  snd (fst (add_remove_debt K debt_name debt_total add_or_remove self))
  = Returns tt.
Proof.
  unfold add_remove_debt, bind, get, put.
  destruct (py_eq add_or_remove (ADD K)); [ reflexivity | ].
  destruct (py_eq add_or_remove (REMOVE K)); [ | reflexivity ].
  destruct (contains debt_name (current_debt self)) eqn:Hc; [ | reflexivity ].
  destruct (contains_remove_first _ _ Hc) as (l1 & y & l2 & _ & _ & _ & Hr).
  rewrite Hr. reflexivity.
Qed.

(** X15.  A REMOVE call whose argument equals a stored entry drops the
    first such entry and nothing else, in silence: the entries before
    it are the ones that differ from the argument, the order of the
    others is kept. *)
Theorem remove_debt_drops_the_first_equal_entry
        (x debt_total : pyvalue) (self : Budget) :
  py_eq (REMOVE K) (ADD K) = false ->
  py_eq (REMOVE K) (REMOVE K) = true ->
  contains x (current_debt self) = true ->
  exists l1 y l2,
    current_debt self = l1 ++ y :: l2 /\
    py_eq y x = true /\
    Forall (fun z => py_eq z x = false) l1 /\
    add_remove_debt K x debt_total (REMOVE K) self =
    ([], Returns tt, set_current_debt self (l1 ++ l2)).
Proof.
  intros Hne Hrefl Hc.
  destruct (contains_remove_first _ _ Hc) as (l1 & y & l2 & Hl & Hy & Hl1 & Hr).
  exists l1, y, l2. repeat split; auto.
  unfold add_remove_debt, bind, get, put.
  rewrite Hne, Hrefl, Hc, Hr. reflexivity.
Qed.

(** X16.  [add_remove_debt] touches no attribute but [current_debt];
    in particular it never updates [total_debt] or [assets], so
    [debt_to_asset] ends after the call as it would have before it. *)
Theorem add_remove_debt_changes_current_debt_only
        (debt_name debt_total add_or_remove : pyvalue) (self : Budget)
        (A B : Type) (x : A) (y : B) :
  same_but_current_debt
    self (snd (add_remove_debt K debt_name debt_total add_or_remove self)) /\
  snd (fst (ratio A B x y
              (snd (add_remove_debt K debt_name debt_total add_or_remove
                                    self))))
  = snd (fst (ratio A B x y self)).
Proof.
  assert (H : same_but_current_debt
                self
                (snd (add_remove_debt K debt_name debt_total add_or_remove
                                      self))).
  { unfold add_remove_debt, bind, get, put, same_but_current_debt.
    destruct (py_eq add_or_remove (ADD K)); [ cbn; tauto | ].
    destruct (py_eq add_or_remove (REMOVE K)); [ | cbn; tauto ].
    destruct (contains debt_name (current_debt self)); [ | cbn; tauto ].
    destruct (remove_first debt_name (current_debt self)); cbn; tauto. }
  split; [ exact H | ].
  destruct H as (_ & _ & _ & _ & _ & Hd & Ha & _).
  set (self' := snd (add_remove_debt K debt_name debt_total add_or_remove
                                     self)) in *.
  unfold debt_to_asset, bind, get. rewrite <- Hd, <- Ha.
  generalize (total_debt self) (assets self). intros n d.
  unfold truediv, mul, ret, raise.
  destruct n as [ a | fa ], d as [ b | fb ]; cbn;
    repeat match goal with
           | |- context [ if ?c then _ else _ ] => destruct c; cbn
           | |- context [ match ?c with Some _ => _ | None => _ end ] =>
               destruct c; cbn
           end; reflexivity.
Qed.

(** X17.  A debt that was added cannot be removed by its name: after
    ADD with a name and REMOVE with the same name, on a budget holding
    the entries ADD stores, the new entry is still the last of
    [current_debt] and 'Debt not found.' was printed. *)
Theorem added_debt_survives_removal_by_name
        (debt_name : pystr) (debt_total other : pyvalue) (self : Budget) :
  py_eq (ADD K) (ADD K) = true ->
  py_eq (REMOVE K) (ADD K) = false ->
  py_eq (REMOVE K) (REMOVE K) = true ->
  Forall is_debt_entry (current_debt self) ->
  (add_remove_debt K (PyStr debt_name) debt_total (ADD K) ;;
   add_remove_debt K (PyStr debt_name) other (REMOVE K)) self =
  ([Print (lit "Debt not found.")], Returns tt,
   set_current_debt self
     (current_debt self ++ [debt_entry (PyStr debt_name) debt_total])).
Proof.
  intros Hadd Hne Hrefl Hall.
  unfold bind at 1. unfold add_remove_debt at 1.
  unfold bind at 1. unfold get at 1. rewrite Hadd. unfold put at 1.
  unfold add_remove_debt, bind, get. cbn [current_debt set_current_debt].
  rewrite Hne, Hrefl.
  rewrite contains_no_name; [ reflexivity | ].
  apply Forall_app. split; [ exact Hall | ].
  constructor; [ | constructor ].
  now exists (PyStr debt_name), debt_total.
Qed.

(** X18.  Removal works when the dictionary itself is passed: ADD of a
    name and a total, then REMOVE with the dictionary
    [{'debt_name': name, 'debt_total': total}], gives back the budget
    as it was, in silence, when no entry equal to that dictionary was
    there before. *)
Theorem added_debt_is_removed_by_its_entry
        (debt_name debt_total other : pyvalue) (self : Budget) :
  py_eq (ADD K) (ADD K) = true ->
  py_eq (REMOVE K) (ADD K) = false ->
  py_eq (REMOVE K) (REMOVE K) = true ->
  py_eq debt_name debt_name = true ->
  py_eq debt_total debt_total = true ->
  Forall (fun z => py_eq z (debt_entry debt_name debt_total) = false)
         (current_debt self) ->
  (add_remove_debt K debt_name debt_total (ADD K) ;;
   add_remove_debt K (debt_entry debt_name debt_total) other (REMOVE K)) self =
  ([], Returns tt, self).
Proof.
  intros Hadd Hne Hrefl Hn Ht Hall.
  assert (He : py_eq (debt_entry debt_name debt_total)
                     (debt_entry debt_name debt_total) = true)
    by (cbn; now rewrite Hn, Ht).
  assert (Hc : contains (debt_entry debt_name debt_total)
                        (current_debt self
                         ++ [debt_entry debt_name debt_total]) = true).
  { unfold contains. rewrite existsb_app. cbn [existsb]. rewrite He.
    now rewrite orb_true_r. }
  assert (Hr : remove_first (debt_entry debt_name debt_total)
                            (current_debt self
                             ++ [debt_entry debt_name debt_total])
               = Some (current_debt self)).
  { now apply remove_first_last. }
  unfold bind at 1. unfold add_remove_debt at 1.
  unfold bind at 1. unfold get at 1. rewrite Hadd. unfold put at 1.
  unfold add_remove_debt, bind, get. cbn [current_debt set_current_debt].
  rewrite Hne, Hrefl, Hc, Hr. unfold put. cbn.
  now destruct self.
Qed.

(** ** [add_remove_budget] and [expense] *)

(** X19.  [add_remove_budget] only ever appends: whatever it is given,
    [budgets] grows by the one dictionary built from its arguments and
    no other attribute moves.  It is independent of [add_remove_debt]:
    the two calls give the same budget and the same output in either
    order. *)
Theorem add_remove_budget_only_appends
        (budget_name budget_total debt_name debt_total add_or_remove : pyvalue)
        (self : Budget) :
  add_remove_budget budget_name budget_total self =
  ([], Returns tt,
   set_budgets self (budgets self ++ [budget_entry budget_name budget_total]))
  /\
  (add_remove_budget budget_name budget_total ;;
   add_remove_debt K debt_name debt_total add_or_remove) self =
  (add_remove_debt K debt_name debt_total add_or_remove ;;
   add_remove_budget budget_name budget_total) self.
Proof.
  split; [ reflexivity | ].
  unfold add_remove_budget, add_remove_debt, bind, get, put.
  cbn [current_debt set_budgets].
  destruct (py_eq add_or_remove (ADD K)); [ reflexivity | ].
  destruct (py_eq add_or_remove (REMOVE K)); [ | reflexivity ].
  destruct (contains debt_name (current_debt self)) eqn:Hc; [ | reflexivity ].
  destruct (contains_remove_first _ _ Hc) as (l1 & y & l2 & _ & _ & _ & Hr).
  rewrite Hr. reflexivity.
Qed.

(** X20.  [expense] records nothing: for every category, type and
    total the budget is left as it was and the call returns; it prints
    'Please select a valid expense category.' exactly when the category
    equals none of the three category constants. *)
Theorem expense_records_nothing
        (expense_category expense_type expense_total : pyvalue)
        (self : Budget) :
  snd (expense K expense_category expense_type expense_total self) = self /\
  snd (fst (expense K expense_category expense_type expense_total self))
  = Returns tt /\
  fst (fst (expense K expense_category expense_type expense_total self)) =
  (if py_eq expense_category (ESSENTIAL_EXPENSES K)
      || py_eq expense_category (NON_ESSENTIAL_EXPENSES K)
      || py_eq expense_category (SAVINGS_AND_INVESTMENTS K)
   then []
   else [Print (lit "Please select a valid expense category.")]).
Proof.
  unfold expense.
  destruct (py_eq expense_category (ESSENTIAL_EXPENSES K));
    [ now repeat split | ].
  destruct (py_eq expense_category (NON_ESSENTIAL_EXPENSES K));
    [ now repeat split | ].
  destruct (py_eq expense_category (SAVINGS_AND_INVESTMENTS K));
    now repeat split.
Qed.

(** ** The ratios *)

Lemma truediv_outcome (x y : pynum pyfloat) (self : Budget) :
  exists o,
    quotient x y self = ([], o, self) /\
    (forall r, o = Returns r -> exists f, r = Float f) /\
    (forall a b, x = Int pyfloat a -> y = Int pyfloat b ->
                 (o = Raises ZeroDivisionError <-> b = 0)).
Proof.
  unfold truediv.
  destruct x as [ a | fa ], y as [ b | fb ]; cbn [to_float].
  - destruct (Z.eqb_spec b 0) as [ Hb | Hb ].
    + eexists. split; [ reflexivity | ]. split.
      * discriminate.
      * intros a' b' [= <-] [= <-]. tauto.
    + destruct (int_truediv a b) as [ q | ];
        (eexists; split; [ reflexivity | ]; split;
         [ try discriminate; intros r [= <-]; now eexists
         | intros a' b' [= <-] [= <-]; split;
           [ discriminate | contradiction ] ]).
  - destruct (float_of_int a) as [ q | ];
      [ destruct (float_is_zero fb) | ];
      (eexists; split; [ reflexivity | ]; split;
       [ try discriminate; intros r [= <-]; now eexists
       | intros a' b' _ [=] ]).
  - destruct (float_of_int b) as [ q | ];
      [ destruct (float_is_zero q) | ];
      (eexists; split; [ reflexivity | ]; split;
       [ try discriminate; intros r [= <-]; now eexists
       | intros a' b' [=] ]).
  - destruct (float_is_zero fb);
      (eexists; split; [ reflexivity | ]; split;
       [ try discriminate; intros r [= <-]; now eexists
       | intros a' b' [=] ]).
Qed.

Lemma times_hundred_outcome (f : pyfloat) (self : Budget) :
  exists o,
    product (Float f) (Int pyfloat 100) self = ([], o, self) /\
    (forall r, o = Returns r -> exists g, r = Float g) /\
    o <> Raises ZeroDivisionError.
Proof.
  unfold mul. cbn [to_float].
  destruct (float_of_int 100) as [ h | ];
    (eexists; split; [ reflexivity | ]; split;
     [ try discriminate; intros r [= <-]; now eexists | discriminate ]).
Qed.

Lemma percentage_outcome (x y : pynum pyfloat) (self : Budget) :
  exists o,
    (q <- quotient x y ;; product q (Int pyfloat 100)) self = ([], o, self) /\
    (forall r, o = Returns r -> exists f, r = Float f) /\
    (forall a b, x = Int pyfloat a -> y = Int pyfloat b ->
                 (o = Raises ZeroDivisionError <-> b = 0)).
Proof.
  destruct (truediv_outcome x y self) as (o & Hq & Hfloat & Hzero).
  unfold bind. rewrite Hq.
  destruct o as [ r | e | ].
  - destruct (Hfloat r eq_refl) as (f & ->).
    destruct (times_hundred_outcome f self) as (o' & Hm & Hf' & Hz').
    rewrite Hm. exists o'. split; [ reflexivity | ]. split; [ exact Hf' | ].
    intros a b Ha Hb. split; [ contradiction | ].
    intro H0. apply (Hzero a b Ha Hb) in H0. discriminate.
  - exists (Raises e). split; [ reflexivity | ]. split; [ discriminate | ].
    exact Hzero.
  - exists Diverges. split; [ reflexivity | ]. split; [ discriminate | ].
    exact Hzero.
Qed.

(** X21.  The nine ratio methods that take their operands as arguments
    are pure: they print nothing and leave the budget as it was.  On
    integer operands they raise [ZeroDivisionError] exactly when the
    divisor is [0], whatever the dividend; and what they return is
    always a float, never an [int]. *)
Theorem ratios_are_pure_and_guardless
        (m : pynum pyfloat -> pynum pyfloat -> prog Budget (pynum pyfloat))
        (x y : pynum pyfloat) (self : Budget) :
  In m [ debt_to_income float_is_zero float_of_int int_truediv float_div
                        float_mul;
         consumer_debt_to_income float_is_zero float_of_int int_truediv
                                 float_div float_mul;
         loan_to_value float_is_zero float_of_int int_truediv float_div
                       float_mul;
         credit_utilization float_is_zero float_of_int int_truediv float_div
                            float_mul;
         savings_to_debt float_is_zero float_of_int int_truediv float_div
                         float_mul;
         emergency_fund_ratio float_is_zero float_of_int int_truediv
                              float_div;
         mortgage_to_income float_is_zero float_of_int int_truediv float_div
                            float_mul;
         debt_to_net_worth float_is_zero float_of_int int_truediv float_div
                           float_mul;
         debt_repayment_ratio float_is_zero float_of_int int_truediv
                              float_div float_mul ] ->
  fst (fst (m x y self)) = [] /\
  snd (m x y self) = self /\
  (forall r, snd (fst (m x y self)) = Returns r -> exists f, r = Float f) /\
  (forall a b, x = Int pyfloat a -> y = Int pyfloat b ->
               (snd (fst (m x y self)) = Raises ZeroDivisionError <-> b = 0)).
Proof.
  intro Hm.
  assert (H : exists o,
             m x y self = ([], o, self) /\
             (forall r, o = Returns r -> exists f, r = Float f) /\
             (forall a b, x = Int pyfloat a -> y = Int pyfloat b ->
                          (o = Raises ZeroDivisionError <-> b = 0))).
  { cbn [In] in Hm.
    repeat (destruct Hm as [<- | Hm];
            [ first [ apply percentage_outcome | apply truediv_outcome ] | ]).
    contradiction. }
  destruct H as (o & -> & Hf & Hz). cbn. auto.
Qed.

End Budget.

(** ** Concrete runs *)

Lemma remove_debt_drops_the_first_equal_entry_witness :
  let entry := debt_entry (PyStr (lit "credit card")) (PyInt 3000) in
  let self :=
    snd (add_remove_debt sample_constants (PyStr (lit "credit card"))
           (PyInt 3000) (ADD sample_constants)
           (Budget_init sample_constants unit)) in
  contains entry (current_debt self) = true /\
  exists l1 y l2,
    current_debt self = l1 ++ y :: l2 /\
    py_eq y entry = true /\
    Forall (fun z => py_eq z entry = false) l1 /\
    add_remove_debt sample_constants entry PyNone (REMOVE sample_constants)
                    self =
    ([], Returns tt, set_current_debt self (l1 ++ l2)).
Proof.
  intros entry self.
  split; [ reflexivity | ].
  exact (@remove_debt_drops_the_first_equal_entry sample_constants unit
           entry PyNone self eq_refl eq_refl eq_refl).
Defined.

Lemma added_debt_survives_removal_by_name_witness :
  Forall is_debt_entry (current_debt (Budget_init sample_constants unit)) /\
  (add_remove_debt sample_constants (PyStr (lit "car loan")) (PyInt 900)
                   (ADD sample_constants) ;;
   add_remove_debt sample_constants (PyStr (lit "car loan")) PyNone
                   (REMOVE sample_constants))
    (Budget_init sample_constants unit) =
  ([Print (lit "Debt not found.")], Returns tt,
   set_current_debt (Budget_init sample_constants unit)
     [debt_entry (PyStr (lit "car loan")) (PyInt 900)]).
Proof.
  assert (H : Forall is_debt_entry
                     (current_debt (Budget_init sample_constants unit)))
    by constructor.
  split; [ exact H | ].
  exact (@added_debt_survives_removal_by_name sample_constants unit
           (lit "car loan") (PyInt 900) PyNone
           (Budget_init sample_constants unit) eq_refl eq_refl eq_refl H).
Defined.

Lemma added_debt_is_removed_by_its_entry_witness :
  py_eq (PyStr (lit "car loan")) (PyStr (lit "car loan")) = true /\
  (add_remove_debt sample_constants (PyStr (lit "car loan")) (PyInt 900)
                   (ADD sample_constants) ;;
   add_remove_debt sample_constants
                   (debt_entry (PyStr (lit "car loan")) (PyInt 900)) PyNone
                   (REMOVE sample_constants))
    (Budget_init sample_constants unit) =
  ([], Returns tt, Budget_init sample_constants unit).
Proof.
  split; [ reflexivity | ].
  apply (@added_debt_is_removed_by_its_entry sample_constants unit
           (PyStr (lit "car loan")) (PyInt 900) PyNone
           (Budget_init sample_constants unit));
    try reflexivity.
  constructor.
Defined.

Lemma ratios_are_pure_and_guardless_witness :
  let ratio :=
    loan_to_value (fun _ : unit => false) (fun _ => Some tt)
                  (fun _ _ => Some tt) (fun _ _ => tt) (fun _ _ => tt) in
  snd (ratio (Int unit 5) (Int unit 0) (Budget_init sample_constants unit))
  = Budget_init sample_constants unit /\
  (snd (fst (ratio (Int unit 5) (Int unit 0)
               (Budget_init sample_constants unit)))
   = Raises ZeroDivisionError <-> 0 = 0).
Proof.
  intro ratio.
  destruct (@ratios_are_pure_and_guardless unit (fun _ => false)
              (fun _ => Some tt) (fun _ _ => Some tt) (fun _ _ => tt)
              (fun _ _ => tt) ratio (Int unit 5) (Int unit 0)
              (Budget_init sample_constants unit))
    as (_ & Hsame & _ & Hzero).
  - cbn. tauto.
  - split; [ exact Hsame | ]. exact (Hzero 5 0 eq_refl eq_refl).
Defined.

End BudgetHandlerMore.
